(** * Phon3x-ART: the fallback carrier channel of [phon3x-art.py]

    A shallow embedding of class [F5Steganography]: key derivation
    ([__init__]), the payload framer ([_prepare_data], [_extract_data],
    [_aes_encrypt], [_aes_decrypt]) and the spatial-domain engine
    ([embed_fallback], [extract_fallback]).

    Conventions.
    - Python [bytes] are [list byte]; Python integers are [Z]; the entries of
      the [uint8] pixel array are [Z] values (an image that PIL decoded holds
      values in [0, 256)); indices into arrays are [nat].
    - Code that can raise returns [result]; [try/except] is a [match] on it.
    - The libraries the script calls are not part of the repository.  Those
      whose behaviour is a few lines (zlib's CRC-32, struct's [>II],
      PKCS#7 [pad]/[unpad], the CBC chaining of pycryptodome) are written
      out; the others (SHA-256, PBKDF2, the AES block function, numpy's
      Mersenne Twister and shuffle, PIL's codecs) are variables of the
      section [Fallback]; section [Properties] states their documented
      contracts as hypotheses.
    - PIL decodes lazily; here a file is decoded when it is opened, which
      changes only the moment at which a corrupt file is reported.
    - [print] calls have no effect on any result and are left out; the one
      that divides by [len(bits)] cannot raise, since what [_prepare_data]
      returns starts with the 16 bytes of the IV. *)

From Stdlib Require Import ZArith List Lia ZifyNat ZifyBool Bool String Ascii.
From Stdlib Require Import Strings.Byte DecimalString Permutation.
From stdpp Require Import base list strings gmap.

Local Open Scope Z_scope.

Abbreviation bytes := (list byte).

#[global] Instance byte_eq_decision : EqDecision byte := Byte.byte_eq_dec.

(** ** Exceptions *)

(** An exception is represented by its message, [str(e)]. *)
Definition exn := string.

Inductive result (A : Type) : Type :=
| Ok (a : A)
| Raise (e : exn).
Arguments Ok {A} a.
Arguments Raise {A} e.

Definition rbind {A B} (r : result A) (k : A -> result B) : result B :=
  match r with
  | Ok a => k a
  | Raise e => Raise e
  end.

Notation "x <-! r ; k" := (rbind r (fun x => k))
  (at level 100, r at next level, right associativity,
   format "x  <-!  r ;  '/' k").

(** ** Bytes and integers *)

Definition byte_to_Z (b : byte) : Z := Z.of_N (Byte.to_N b).

Definition byte_of_Z (z : Z) : byte :=
  match Byte.of_N (Z.to_N (z mod 256)) with
  | Some b => b
  | None => x00
  end.

(** [bytes(ints)]: every element must be in [range(256)]. *)
Fixpoint bytes_of_ints (l : list Z) : result bytes :=
  match l with
  | [] => Ok []
  | v :: l' =>
      if (0 <=? v) && (v <? 256)
      then (bs <-! bytes_of_ints l'; Ok (byte_of_Z v :: bs))
      else Raise "bytes must be in range(0, 256)"
  end.

Definition byte_xor (a b : byte) : byte :=
  byte_of_Z (Z.lxor (byte_to_Z a) (byte_to_Z b)).

(** [strxor]: the byte-wise exclusive or of two blocks. *)
Fixpoint xor_bytes (a b : bytes) : bytes :=
  match a, b with
  | x :: a', y :: b' => byte_xor x y :: xor_bytes a' b'
  | _, _ => []
  end.

(** [int.from_bytes(b, 'big')] *)
Definition int_from_bytes_big (b : bytes) : Z :=
  fold_left (fun acc x => acc * 256 + byte_to_Z x) b 0.

(** [str(n)] for a non-negative integer. *)
Definition str_of_Z (z : Z) : string :=
  NilZero.string_of_uint (N.to_uint (Z.to_N z)).

(** ** zlib.crc32 *)

Definition crc32_shift (c : Z) : Z :=
  if Z.odd c then Z.lxor (Z.shiftr c 1) 0xEDB88320 else Z.shiftr c 1.

Definition crc32_update (c : Z) (b : byte) : Z :=
  Nat.iter 8 crc32_shift (Z.lxor c (byte_to_Z b)).

Definition crc32 (data : bytes) : Z :=
  Z.lxor (fold_left crc32_update data 0xFFFFFFFF) 0xFFFFFFFF.

(** ** struct.pack / struct.unpack with format [>II] *)

Definition u32_be (v : Z) : bytes :=
  [byte_of_Z (Z.shiftr v 24); byte_of_Z (Z.shiftr v 16);
   byte_of_Z (Z.shiftr v 8); byte_of_Z v].

Definition is_u32 (v : Z) : bool := (0 <=? v) && (v <? 2 ^ 32).

Definition struct_pack_II (a b : Z) : result bytes :=
  if is_u32 a && is_u32 b then Ok (u32_be a ++ u32_be b)
  else Raise "'I' format requires 0 <= number <= 4294967295".

Definition struct_unpack_II (buf : bytes) : result (Z * Z) :=
  match buf with
  | [a0; a1; a2; a3; b0; b1; b2; b3] =>
      Ok (int_from_bytes_big [a0; a1; a2; a3],
          int_from_bytes_big [b0; b1; b2; b3])
  | _ => Raise "unpack requires a buffer of 8 bytes"
  end.

(** ** Crypto.Util.Padding (PKCS#7) *)

Definition block_size : nat := 16.

Definition pad (data : bytes) : bytes :=
  let padding_len := (block_size - length data mod block_size)%nat in
  data ++ repeat (byte_of_Z (Z.of_nat padding_len)) padding_len.

Definition unpad (padded_data : bytes) : result bytes :=
  let pdata_len := length padded_data in
  if (pdata_len =? 0)%nat then Raise "Zero-length input cannot be unpadded"
  else if negb (pdata_len mod block_size =? 0)%nat
  then Raise "Input data is not padded"
  else
    let padding_len := Z.to_nat (byte_to_Z (List.last padded_data x00)) in
    if (padding_len <? 1)%nat || (Nat.min block_size pdata_len <? padding_len)%nat
    then Raise "Padding is incorrect."
    else if negb (bool_decide
                    (skipn (pdata_len - padding_len) padded_data
                     = repeat (byte_of_Z (Z.of_nat padding_len)) padding_len))
    then Raise "PKCS#7 padding is incorrect."
    else Ok (firstn (pdata_len - padding_len) padded_data).

(** ** Bit strings *)

(** [f'{byte:08b}']: the eight binary digits of a byte, most significant
    first.  The characters ['0'] and ['1'] are represented by the integers
    that [int(bit)] later makes of them. *)
Definition format_08b (b : byte) : list Z :=
  map (fun i => Z.b2z (Z.testbit (byte_to_Z b) i)) [7; 6; 5; 4; 3; 2; 1; 0].

(** [''.join(f'{byte:08b}' for byte in prepared_data)] *)
Definition binary_data (prepared_data : bytes) : list Z :=
  flat_map format_08b prepared_data.

(** [''.join(bit * 2 for bit in binary_data)] *)
Definition ecc_data (binary : list Z) : list Z :=
  flat_map (fun bit => [bit; bit]) binary.

(** The loop over [range(0, len(extracted_bits), 2)]: one output bit per
    complete pair, [1 if sum(chunk) >= 1 else 0]. *)
Fixpoint error_correct (extracted_bits : list Z) : list Z :=
  match extracted_bits with
  | a :: b :: rest => (if 1 <=? a + b then 1 else 0) :: error_correct rest
  | _ => []
  end.

(** The loop over [range(offset, len(error_corrected_bits), 8)] applied to
    the bits from [offset] on: one integer per complete group of eight,
    built by [byte = (byte << 1) | bit]. *)
Fixpoint pack_bits (bits : list Z) : list Z :=
  match bits with
  | b0 :: b1 :: b2 :: b3 :: b4 :: b5 :: b6 :: b7 :: rest =>
      fold_left (fun byte bit => Z.lor (Z.shiftl byte 1) bit)
                [b0; b1; b2; b3; b4; b5; b6; b7] 0
      :: pack_bits rest
  | _ => []
  end.

(** ** The pixel loops *)

(** [(pixel_val >> 1) & 1] *)
Definition second_lsb (pixel_val : Z) : Z := Z.land (Z.shiftr pixel_val 1) 1.

(** The [for idx in indices] loop of [embed_fallback]; it returns the
    pixel array and the [modifications] counter. *)
Fixpoint embed_loop (indices : list nat) (bits : list Z) (bit_index : nat)
    (flat_pixels : list Z) (modifications : nat) : result (list Z * nat) :=
  match indices with
  | [] => Ok (flat_pixels, modifications)
  | idx :: indices' =>
      match bits !! bit_index with
      | None => Ok (flat_pixels, modifications)          (* break *)
      | Some bit =>
          match flat_pixels !! idx with
          | None => Raise "index out of bounds"
          | Some pixel_val =>
              let current_bit := second_lsb pixel_val in
              if current_bit =? bit
              then embed_loop indices' bits (S bit_index) flat_pixels modifications
              else embed_loop indices' bits (S bit_index)
                     (<[idx := Z.lxor pixel_val (Z.shiftl 1 1)]> flat_pixels)
                     (S modifications)
          end
      end
  end.

(** The [for idx in indices] loop of [extract_fallback]. *)
Fixpoint extract_loop (indices : list nat) (flat_pixels : list Z)
  : result (list Z) :=
  match indices with
  | [] => Ok []
  | idx :: indices' =>
      match flat_pixels !! idx with
      | None => Raise "index out of bounds"
      | Some pixel_val =>
          extracted_bits <-! extract_loop indices' flat_pixels;
          Ok (second_lsb pixel_val :: extracted_bits)
      end
  end.

(** ** Vocabulary of the statements *)

(** A value that [int(bit)] can produce. *)
Definition is_bit (v : Z) : Prop := v = 0 \/ v = 1.

(** What one iteration of [embed_loop] leaves in a slot: the value it read
    when the second-least-significant bit already is [bit], the value with
    that bit flipped otherwise. *)
Definition set_second_lsb (pixel_val bit : Z) : Z :=
  if second_lsb pixel_val =? bit then pixel_val
  else Z.lxor pixel_val (Z.shiftl 1 1).

(** The bytes [_prepare_data] hands to [_aes_encrypt]:
    [struct.pack('>II', length, crc) + secret_data]. *)
Definition frame (secret_data : bytes) : bytes :=
  u32_be (Z.of_nat (length secret_data)) ++ u32_be (crc32 secret_data)
  ++ secret_data.

(** The fields [_extract_data] reads from the decrypted bytes:
    [struct.unpack('>II', decrypted[:8])] and [decrypted[8:8+length]]. *)
Definition length_field (decrypted : bytes) : Z :=
  int_from_bytes_big (firstn 4 decrypted).
Definition checksum_field (decrypted : bytes) : Z :=
  int_from_bytes_big (firstn 4 (skipn 4 decrypted)).
Definition payload_field (decrypted : bytes) : bytes :=
  firstn (Z.to_nat (length_field decrypted)) (skipn 8 decrypted).

(** The test [current_bit != bit] of the embedding loop, for a slot and the
    bit meant for it: whether the cover holds the other bit there. *)
Definition flips (flat_pixels : list Z) (p : nat * Z) : bool :=
  negb (second_lsb (nth (fst p) flat_pixels 0) =? snd p).

(** ** Images and the session object *)

(** An image as the script sees it after [convert('RGB')]: its size and
    [np.array(img).flatten()], row-major with three channels per pixel. *)
Record Image := { width : nat; height : nat; pixels : list Z }.

Definition Image_wf (img : Image) : Prop :=
  length (pixels img) = (width img * height img * 3)%nat
  /\ Forall (fun v => 0 <= v < 256) (pixels img).

(** The attributes [__init__] sets. *)
Record F5Steganography := {
  password : string;
  quality : Z;
  key : bytes;
  seed : Z;
  use_outguess : bool
}.

(** * The program, over the libraries it calls *)

Module Stego.

Section Fallback.

(** hashlib: [sha256(m).digest()] and [pbkdf2_hmac(name, pw, salt, n, dklen)]. *)
Variable hashlib_sha256 : bytes -> bytes.
Variable hashlib_pbkdf2_hmac : string -> bytes -> bytes -> Z -> Z -> bytes.

(** Crypto.Cipher.AES: the block function under a key, and its inverse. *)
Variable AES_encrypt_block : bytes -> bytes -> bytes.
Variable AES_decrypt_block : bytes -> bytes -> bytes.

(** numpy.random: the state of the global generator, what [seed(s)] sets
    it to, and [permutation(n)], which draws from it. *)
Variable rng_state : Type.
Variable RandomState_seed : Z -> rng_state.
Variable RandomState_permutation : rng_state -> nat -> list nat * rng_state.

(** PIL: decoding a file to an RGB pixel array, encoding one as JPEG at a
    quality; and whether a path of the file system can be written. *)
Variable file : Type.
Variable PIL_decode_RGB : file -> result Image.
Variable PIL_encode_JPEG : Z -> Image -> result file.
Variable fs_writable : gmap string file -> string -> bool.

(** ** What the calls act on *)

Record world := { fs : gmap string file; rng : rng_state }.

(** Code that reads or writes the world and can raise. *)
Definition M (A : Type) : Type := world -> result A * world.

Definition ret {A} (a : A) : M A := fun w => (Ok a, w).
Definition lift {A} (r : result A) : M A := fun w => (r, w).
Definition bind {A B} (m : M A) (k : A -> M B) : M B :=
  fun w => match m w with
           | (Ok a, w') => k a w'
           | (Raise e, w') => (Raise e, w')
           end.
Definition try_except {A} (m : M A) (handler : exn -> M A) : M A :=
  fun w => match m w with
           | (Ok a, w') => (Ok a, w')
           | (Raise e, w') => handler e w'
           end.

Notation "x <- m ;; k" := (bind m (fun x => k))
  (at level 100, m at next level, right associativity).

(** [Image.open(path)], [convert('RGB')] and [np.array(img)]. *)
Definition Image_open (path : string) : M Image :=
  fun w => match fs w !! path with
           | None => (Raise ("No such file or directory: " ++ path)%string, w)
           | Some f => (PIL_decode_RGB f, w)
           end.

(** [Image.fromarray(pixels).save(path, 'JPEG', quality=q, optimize=False)] *)
Definition Image_save (path : string) (img : Image) (q : Z) : M unit :=
  fun w => if fs_writable (fs w) path
           then match PIL_encode_JPEG q img with
                | Ok f => (Ok tt, {| fs := <[path := f]> (fs w); rng := rng w |})
                | Raise e => (Raise e, w)
                end
           else (Raise ("cannot write " ++ path)%string, w).

(** [np.random.seed(s)] *)
Definition np_random_seed (s : Z) : M unit :=
  fun w => if (0 <=? s) && (s <? 2 ^ 32)
           then (Ok tt, {| fs := fs w; rng := RandomState_seed s |})
           else (Raise "Seed must be between 0 and 2**32 - 1", w).

(** [np.random.permutation(n)] *)
Definition np_random_permutation (n : nat) : M (list nat) :=
  fun w => let '(indices, st) := RandomState_permutation (rng w) n in
           (Ok indices, {| fs := fs w; rng := st |}).

(** The permutation generator: the two statements
    [np.random.seed(seed % (2**32))] and
    [indices = np.random.permutation(available_bits)], which
    [embed_fallback] and [extract_fallback] both run. *)
Definition permutation_generator (seed_ : Z) (available_bits : nat)
  : M (list nat) :=
  _ <- np_random_seed (seed_ mod 2 ^ 32) ;;
  np_random_permutation available_bits.

(** ** AES-256 in CBC mode *)

Fixpoint cbc_encrypt_blocks (n : nat) (k prev data : bytes) : bytes :=
  match n with
  | O => []
  | S n' =>
      let c := AES_encrypt_block k (xor_bytes (firstn block_size data) prev) in
      c ++ cbc_encrypt_blocks n' k c (skipn block_size data)
  end.

Fixpoint cbc_decrypt_blocks (n : nat) (k prev data : bytes) : bytes :=
  match n with
  | O => []
  | S n' =>
      let c := firstn block_size data in
      xor_bytes (AES_decrypt_block k c) prev
      ++ cbc_decrypt_blocks n' k c (skipn block_size data)
  end.

(** [AES.new(key, AES.MODE_CBC, iv).encrypt(data)] *)
Definition cbc_encrypt (k iv data : bytes) : result bytes :=
  if negb (length iv =? block_size)%nat
  then Raise "Incorrect IV length (it must be 16 bytes long)"
  else if negb (length data mod block_size =? 0)%nat
  then Raise "Data must be padded to 16 byte boundary in CBC mode"
  else Ok (cbc_encrypt_blocks (length data / block_size) k iv data).

(** [AES.new(key, AES.MODE_CBC, iv).decrypt(data)] *)
Definition cbc_decrypt (k iv data : bytes) : result bytes :=
  if negb (length iv =? block_size)%nat
  then Raise "Incorrect IV length (it must be 16 bytes long)"
  else if negb (length data mod block_size =? 0)%nat
  then Raise "Data must be padded to 16 byte boundary in CBC mode"
  else Ok (cbc_decrypt_blocks (length data / block_size) k iv data).

(** ** class F5Steganography *)

(** [outguess_found] is the outcome of [_check_outguess]. *)
Definition __init__ (pw : string) (q : Z) (outguess_found : bool)
  : F5Steganography :=
  let seed_bytes := firstn 8 (hashlib_sha256 (list_byte_of_string pw)) in
  {| password := pw;
     quality := q;
     key := hashlib_pbkdf2_hmac "sha256" (list_byte_of_string pw)
              (list_byte_of_string "F5StegoSalt") 100000 32;
     seed := int_from_bytes_big seed_bytes;
     use_outguess := outguess_found |}.

(** [iv] is the initialisation vector [AES.new] draws at random. *)
Definition _aes_encrypt (self : F5Steganography) (iv data : bytes)
  : result (bytes * bytes) :=
  ct_bytes <-! cbc_encrypt (key self) iv (pad data);
  Ok (iv, ct_bytes).

Definition _aes_decrypt (self : F5Steganography) (iv ct : bytes)
  : result bytes :=
  decrypted <-! cbc_decrypt (key self) iv ct;
  unpad decrypted.

Definition _prepare_data (self : F5Steganography) (iv secret_data : bytes)
  : result bytes :=
  let length_ := Z.of_nat (length secret_data) in
  let crc := Z.land (crc32 secret_data) 0xffffffff in
  metadata <-! struct_pack_II length_ crc;
  let payload := metadata ++ secret_data in
  iv_encrypted <-! _aes_encrypt self iv payload;
  Ok (fst iv_encrypted ++ snd iv_encrypted).

(** The body of the [try] block of [_extract_data]; falling out of the
    nested [if]s reaches [return None]. *)
Definition _extract_data_try (self : F5Steganography) (raw_data : bytes)
  : result (option bytes) :=
  let iv := firstn 16 raw_data in
  let encrypted := skipn 16 raw_data in
  decrypted <-! _aes_decrypt self iv encrypted;
  if (8 <=? length decrypted)%nat then
    length_crc <-! struct_unpack_II (firstn 8 decrypted);
    let length_ := fst length_crc in
    let expected_crc := snd length_crc in
    if 8 + length_ <=? Z.of_nat (length decrypted) then
      let data := firstn (Z.to_nat length_) (skipn 8 decrypted) in
      let actual_crc := Z.land (crc32 data) 0xffffffff in
      if actual_crc =? expected_crc then Ok (Some data) else Ok None
    else Ok None
  else Ok None.

Definition _extract_data (self : F5Steganography) (raw_data : bytes)
  : option bytes :=
  if (length raw_data <? 16)%nat then None
  else match _extract_data_try self raw_data with
       | Ok r => r
       | Raise _ => None            (* except: pass *)
       end.

(** The truth value of a [bytes] object. *)
Definition truthy (data : bytes) : bool :=
  match data with [] => false | _ => true end.

Definition embed_fallback_try (self : F5Steganography) (iv : bytes)
    (cover_path : string) (secret_data : bytes) (output_path : string)
  : M (bool * string) :=
  prepared_data <- lift (_prepare_data self iv secret_data) ;;
  let bits := ecc_data (binary_data prepared_data) in
  img <- Image_open cover_path ;;
  let total_bits_needed := length bits in
  let available_bits := (width img * height img * 3)%nat in
  if (available_bits <? total_bits_needed)%nat then
    ret (false,
         ("Insufficient capacity: need "
          ++ str_of_Z (Z.of_nat total_bits_needed) ++ " bits, have "
          ++ str_of_Z (Z.of_nat available_bits))%string)
  else
    indices <- permutation_generator (seed self) available_bits ;;
    written <- lift (embed_loop indices bits 0 (pixels img) 0) ;;
    let result_img :=
      {| width := width img; height := height img; pixels := fst written |} in
    _ <- Image_save output_path result_img (quality self) ;;
    ret (true,
         ("Fallback embedding successful - Embedded "
          ++ str_of_Z (Z.of_nat (length secret_data)) ++ " bytes")%string).

Definition embed_fallback (self : F5Steganography) (iv : bytes)
    (cover_path : string) (secret_data : bytes) (output_path : string)
  : M (bool * string) :=
  try_except (embed_fallback_try self iv cover_path secret_data output_path)
    (fun e => ret (false, ("Fallback embedding failed: " ++ e)%string)).

(** The [for offset in range(8)] loop, over the offsets still to try. *)
Fixpoint try_offsets (self : F5Steganography) (error_corrected_bits : list Z)
    (offsets : list nat) : result (option bytes * string) :=
  match offsets with
  | [] => Ok (None, "No valid data found in fallback extraction"%string)
  | offset :: offsets' =>
      extracted <-! bytes_of_ints (pack_bits (skipn offset error_corrected_bits));
      match _extract_data self extracted with
      | Some data =>
          if truthy data then Ok (Some data, "Fallback extraction successful"%string)
          else try_offsets self error_corrected_bits offsets'
      | None => try_offsets self error_corrected_bits offsets'
      end
  end.

Definition extract_fallback_try (self : F5Steganography) (stego_path : string)
  : M (option bytes * string) :=
  img <- Image_open stego_path ;;
  let available_bits := (width img * height img * 3)%nat in
  indices <- permutation_generator (seed self) available_bits ;;
  extracted_bits <- lift (extract_loop indices (pixels img)) ;;
  let error_corrected_bits := error_correct extracted_bits in
  lift (try_offsets self error_corrected_bits (seq 0 8)).

Definition extract_fallback (self : F5Steganography) (stego_path : string)
  : M (option bytes * string) :=
  try_except (extract_fallback_try self stego_path)
    (fun e => ret (None, ("Fallback extraction failed: " ++ e)%string)).

End Fallback.

Arguments fs {rng_state file} w.
Arguments rng {rng_state file} w.

End Stego.

Import Stego.

(** * The OutGuess backend and the two entry points

    [embed_with_outguess] and [extract_with_outguess] hand the envelope to
    the external program [outguess] through a temporary file.  The program,
    the naming of temporary files and [str.strip] are variables of the
    section; a file of the file system can be written from bytes and read
    back as bytes.  [os.unlink] removes a path that exists and raises
    otherwise; failures for lack of permission are not modelled, the files
    unlinked being the process's own temporary files. *)

Module Backend.

Section Outguess.

Variable AES_encrypt_block : bytes -> bytes -> bytes.
Variable AES_decrypt_block : bytes -> bytes -> bytes.
Variable rng_state : Type.
Variable RandomState_seed : Z -> rng_state.
Variable RandomState_permutation : rng_state -> nat -> list nat * rng_state.
Variable file : Type.
Variable PIL_decode_RGB : file -> result Image.
Variable PIL_encode_JPEG : Z -> Image -> result file.
Variable fs_writable : gmap string file -> string -> bool.

(** [open(path, 'wb').write(data)] and [open(path, 'rb').read()]. *)
Variable file_of_bytes : bytes -> file.
Variable file_read : file -> bytes.

(** The name [tempfile.NamedTemporaryFile(suffix=s)] picks, given the files
    that exist. *)
Variable tempfile_name : gmap string file -> string -> string.

(** [subprocess.run(cmd, capture_output=True, text=True)]: the exit status
    and the standard error of the process, and the files it leaves; it
    raises when the program cannot be started. *)
Variable subprocess_run :
  list string -> gmap string file -> result (Z * string) * gmap string file.

(** [str.strip] *)
Variable str_strip : string -> string.

Notation "x <- m ;; k" := (bind rng_state file m (fun x => k))
  (at level 100, m at next level, right associativity).

(** [with tempfile.NamedTemporaryFile(mode='wb', delete=False, suffix=s) as
    tmp: tmp.write(content); data_path = tmp.name] *)
Definition NamedTemporaryFile (suffix : string) (content : bytes)
  : M rng_state file string :=
  fun w =>
    let data_path := tempfile_name (fs w) suffix in
    if fs_writable (fs w) data_path
    then (Ok data_path,
          {| fs := <[data_path := file_of_bytes content]> (fs w);
             rng := rng w |})
    else (Raise ("cannot create " ++ data_path)%string, w).

Definition run (cmd : list string) : M rng_state file (Z * string) :=
  fun w => (fst (subprocess_run cmd (fs w)),
            {| fs := snd (subprocess_run cmd (fs w)); rng := rng w |}).

Definition os_unlink (path : string) : M rng_state file unit :=
  fun w => match fs w !! path with
           | Some _ => (Ok tt, {| fs := delete path (fs w); rng := rng w |})
           | None => (Raise ("No such file or directory: " ++ path)%string, w)
           end.

(** [try: os.unlink(data_path)] with [except: pass]. *)
Definition unlink_quietly (path : string) : M rng_state file unit :=
  try_except rng_state file (os_unlink path) (fun _ => ret rng_state file tt).

(** [with open(path, 'rb') as f: extracted = f.read()] *)
Definition read_file (path : string) : M rng_state file bytes :=
  fun w => match fs w !! path with
           | Some f => (Ok (file_read f), w)
           | None => (Raise ("No such file or directory: " ++ path)%string, w)
           end.

(** [result.stderr.strip() if result.stderr else "Unknown error"] *)
Definition error_msg (stderr : string) : string :=
  match stderr with
  | EmptyString => "Unknown error"%string
  | _ => str_strip stderr
  end.

Definition embed_with_outguess_try (self : F5Steganography) (iv : bytes)
    (cover_path : string) (secret_data : bytes) (output_path : string)
  : M rng_state file (bool * string) :=
  prepared_data <- lift rng_state file
                     (_prepare_data AES_encrypt_block self iv secret_data) ;;
  data_path <- NamedTemporaryFile ".dat" prepared_data ;;
  let cmd := ["outguess"; "-d"; data_path; "-k"; password self;
              cover_path; output_path]%string in
  result <- run cmd ;;
  _ <- unlink_quietly data_path ;;
  if fst result =? 0 then
    ret rng_state file
      (true, "Embedding successful using OutGuess (Professional F5)"%string)
  else
    ret rng_state file
      (false, ("OutGuess failed: " ++ error_msg (snd result))%string).

Definition embed_with_outguess (self : F5Steganography) (iv : bytes)
    (cover_path : string) (secret_data : bytes) (output_path : string)
  : M rng_state file (bool * string) :=
  try_except rng_state file
    (embed_with_outguess_try self iv cover_path secret_data output_path)
    (fun e => ret rng_state file (false, ("OutGuess error: " ++ e)%string)).

Definition extract_with_outguess_try (self : F5Steganography)
    (stego_path : string) : M rng_state file (option bytes * string) :=
  data_path <- NamedTemporaryFile ".out" [] ;;
  let cmd := ["outguess"; "-r"; "-k"; password self;
              stego_path; data_path]%string in
  result <- run cmd ;;
  if fst result =? 0 then
    extracted <- read_file data_path ;;
    _ <- unlink_quietly data_path ;;
    match _extract_data AES_decrypt_block self extracted with
    | Some data =>
        if truthy data
        then ret rng_state file
               (Some data, "Extraction successful using OutGuess"%string)
        else ret rng_state file
               (None, "Extracted data is invalid or corrupted"%string)
    | None =>
        ret rng_state file
          (None, "Extracted data is invalid or corrupted"%string)
    end
  else
    _ <- unlink_quietly data_path ;;
    ret rng_state file
      (None, ("OutGuess extraction failed: " ++ error_msg (snd result))%string).

Definition extract_with_outguess (self : F5Steganography)
    (stego_path : string) : M rng_state file (option bytes * string) :=
  try_except rng_state file (extract_with_outguess_try self stego_path)
    (fun e => ret rng_state file (None, ("OutGuess error: " ++ e)%string)).

(** [embed] and [extract]: OutGuess when [__init__] found it, the fallback
    otherwise. *)
Definition embed (self : F5Steganography) (iv : bytes)
    (cover_path : string) (secret_data : bytes) (output_path : string)
  : M rng_state file (bool * string) :=
  if use_outguess self
  then embed_with_outguess self iv cover_path secret_data output_path
  else embed_fallback AES_encrypt_block rng_state RandomState_seed
         RandomState_permutation file PIL_decode_RGB PIL_encode_JPEG
         fs_writable self iv cover_path secret_data output_path.

Definition extract (self : F5Steganography) (stego_path : string)
  : M rng_state file (option bytes * string) :=
  if use_outguess self
  then extract_with_outguess self stego_path
  else extract_fallback AES_decrypt_block rng_state RandomState_seed
         RandomState_permutation file PIL_decode_RGB self stego_path.

End Outguess.

End Backend.

(** * Stand-ins for the libraries

    Small executable instances of the library interfaces, on which the
    program above can be run inside Rocq.  They meet the contracts stated in
    section [Properties] below; nothing else about them is used. *)

Module Sample.

(** A keyed involution on blocks: exclusive or with the key, zero-extended
    or cut to one block. *)
Definition block_key (k : bytes) : bytes := firstn block_size (k ++ repeat x00 block_size).
Definition encrypt_block (k b : bytes) : bytes := xor_bytes b (block_key k).
Definition decrypt_block (k b : bytes) : bytes := xor_bytes b (block_key k).

(** Digests: the message cut or zero-extended to the digest size. *)
Definition sha256 (m : bytes) : bytes := firstn 32 (m ++ repeat x00 32).
Definition pbkdf2_hmac (name : string) (pw salt : bytes) (iterations dklen : Z)
  : bytes :=
  firstn (Z.to_nat dklen) (pw ++ salt ++ repeat x00 (Z.to_nat dklen)).

(** A generator whose state is the seed and the number of draws made;
    [permutation n] counts down from [n - 1]. *)
Definition rng_state : Type := Z * nat.
Definition seed_state (s : Z) : rng_state := (s, O).
Definition permutation (st : rng_state) (n : nat) : list nat * rng_state :=
  (rev (seq 0 n), (fst st, S (snd st))).

(** A lossless codec: a file is the image it holds, and decoding accepts
    it when it has three 8-bit channel values per pixel. *)
Definition file : Type := Image.
Definition Image_wfb (img : Image) : bool :=
  (length (pixels img) =? width img * height img * 3)%nat
  && forallb (fun v => (0 <=? v) && (v <? 256)) (pixels img).
Definition decode_RGB (f : file) : result Image :=
  if Image_wfb f then Ok f else Raise "cannot identify image file".
Definition encode (q : Z) (img : Image) : result file := Ok img.
Definition writable (files : gmap string file) (path : string) : bool := true.

Definition session (pw : string) : F5Steganography :=
  __init__ sha256 pbkdf2_hmac pw 90 false.

Definition iv : bytes := map byte_of_Z (map Z.of_nat (seq 1 16)).

(** A cover of [w] by [h] pixels with a fixed pattern of channel values. *)
Definition cover (w h : nat) : Image :=
  {| width := w; height := h;
     pixels := map (fun i => Z.of_nat (i * 37 mod 256)) (seq 0 (w * h * 3)) |}.

Definition disk (w h : nat) : world rng_state file :=
  {| fs := {[ "cover.jpg"%string := cover w h ]}; rng := (0, O) |}.

Definition embed (pw : string) (secret_data : bytes) (w h : nat) :=
  embed_fallback encrypt_block rng_state seed_state permutation file
    decode_RGB encode writable (session pw) iv "cover.jpg" secret_data
    "stego.jpg" (disk w h).

Definition extract (pw : string) (wd : world rng_state file) :=
  extract_fallback decrypt_block rng_state seed_state permutation file
    decode_RGB (session pw) "stego.jpg" wd.

Definition hello : bytes := list_byte_of_string "hello".

(** What [_prepare_data] returns for [hello] under the stand-ins. *)
Definition envelope (pw : string) (secret_data : bytes) : bytes :=
  match _prepare_data encrypt_block (session pw) iv secret_data with
  | Ok prepared_data => prepared_data
  | Raise _ => []
  end.

(** A payload of 2^32 zero bytes. *)
Definition payload_4GiB : bytes := repeat x00 (Z.to_nat (2 ^ 32)).

End Sample.

(** A stand-in for the program [outguess] on a file system of byte strings:
    [-d] stores the data file at the output path when the cover exists,
    [-r] copies the stego file to the data path; a missing input gives exit
    status 1, and any other command line cannot be started. *)
Module SampleTool.

Definition file : Type := bytes.
Definition file_of_bytes (content : bytes) : file := content.
Definition file_read (f : file) : bytes := f.
Definition writable (files : gmap string file) (path : string) : bool := true.
Definition tempfile_name (files : gmap string file) (suffix : string) : string :=
  ("/tmp/tmp0" ++ suffix)%string.
Definition strip (s : string) : string := s.

Definition run (cmd : list string) (files : gmap string file)
  : result (Z * string) * gmap string file :=
  match cmd with
  | ["outguess"; "-d"; data_path; "-k"; _; cover_path; output_path]%string =>
      match files !! data_path, files !! cover_path with
      | Some content, Some _ =>
          (Ok (0, ""%string), <[output_path := content]> files)
      | _, _ => (Ok (1, "outguess: cannot open input"%string), files)
      end
  | ["outguess"; "-r"; "-k"; _; stego_path; data_path]%string =>
      match files !! stego_path with
      | Some content => (Ok (0, ""%string), <[data_path := content]> files)
      | None => (Ok (1, "outguess: cannot open input"%string), files)
      end
  | _ => (Raise "No such file or directory: 'outguess'"%string, files)
  end.

Definition session (pw : string) : F5Steganography :=
  __init__ Sample.sha256 Sample.pbkdf2_hmac pw 90 true.

(** A disk that holds a cover and a stego file made from [hello]. *)
Definition disk : world Sample.rng_state file :=
  {| fs := {[ "cover.jpg"%string := [xff; xd8; xff; xd9]%byte;
              "stego.jpg"%string
                := Sample.envelope "secure-pass-123" Sample.hello ]};
     rng := (0, O) |}.

Definition embed (pw : string) (secret_data : bytes)
    (wd : world Sample.rng_state file) :=
  Backend.embed_with_outguess Sample.encrypt_block Sample.rng_state file
    writable file_of_bytes tempfile_name run strip (session pw) Sample.iv
    "cover.jpg" secret_data "out.jpg" wd.

Definition extract (pw : string) (stego_path : string)
    (wd : world Sample.rng_state file) :=
  Backend.extract_with_outguess Sample.decrypt_block Sample.rng_state file
    writable file_of_bytes file_read tempfile_name run strip (session pw)
    stego_path wd.

End SampleTool.

(** * Properties *)

(** [lia] with division and remainder by constants. *)
Ltac Zify.zify_post_hook ::= Z.div_mod_to_equations.

(** Run first in a proof inside a section: drops the section variables the
    statement does not mention, so that no tactic makes the lemma depend on
    them. *)
Ltac drop_unused := repeat match goal with H : _ |- _ => clear H end.

(** ** Bytes *)

Lemma byte_to_Z_range (b : byte) : 0 <= byte_to_Z b < 256.
Proof.
  unfold byte_to_Z. pose proof (Byte.to_N_bounded b). lia.
Qed.

Lemma byte_of_to_Z (b : byte) : byte_of_Z (byte_to_Z b) = b.
Proof.
  unfold byte_of_Z, byte_to_Z.
  rewrite Z.mod_small by (pose proof (Byte.to_N_bounded b); lia).
  rewrite N2Z.id, Byte.of_to_N. reflexivity.
Qed.

Lemma byte_to_of_Z (z : Z) : byte_to_Z (byte_of_Z z) = z mod 256.
Proof.
  unfold byte_of_Z, byte_to_Z.
  pose proof (Z.mod_pos_bound z 256 eq_refl) as Hr.
  destruct (Byte.of_N (Z.to_N (z mod 256))) as [b|] eqn:E.
  - apply Byte.to_of_N in E. rewrite E. lia.
  - apply Byte.of_N_None_iff in E. lia.
Qed.

Lemma byte_to_Z_inj (a b : byte) : byte_to_Z a = byte_to_Z b -> a = b.
Proof.
  intros E. rewrite <- (byte_of_to_Z a), <- (byte_of_to_Z b), E. reflexivity.
Qed.

Lemma Z_lxor_lt_pow2 (a b n : Z) :
  0 <= n -> 0 <= a < 2 ^ n -> 0 <= b < 2 ^ n -> 0 <= Z.lxor a b < 2 ^ n.
Proof.
  intros Hn Ha Hb.
  assert (H0 : 0 <= Z.lxor a b) by (apply Z.lxor_nonneg; lia).
  split; [exact H0 |].
  destruct (Z.eq_dec (Z.lxor a b) 0) as [E | E]; [rewrite E; lia |].
  assert (0 < n).
  { destruct (Z.eq_dec n 0) as [-> | ?]; [| lia].
    change (2 ^ 0) with 1 in *. exfalso. apply E.
    replace a with 0 by lia. replace b with 0 by lia. reflexivity. }
  apply Z.log2_lt_pow2; [lia |].
  eapply Z.le_lt_trans; [apply Z.log2_lxor; lia |].
  apply Z.max_lub_lt.
  - destruct (Z.eq_dec a 0) as [-> | ?]; [simpl; lia |].
    apply Z.log2_lt_pow2; lia.
  - destruct (Z.eq_dec b 0) as [-> | ?]; [simpl; lia |].
    apply Z.log2_lt_pow2; lia.
Qed.

Lemma byte_to_Z_xor (a b : byte) :
  byte_to_Z (byte_xor a b) = Z.lxor (byte_to_Z a) (byte_to_Z b).
Proof.
  unfold byte_xor. rewrite byte_to_of_Z. apply Z.mod_small.
  apply (Z_lxor_lt_pow2 _ _ 8); [lia | apply byte_to_Z_range ..].
Qed.

Lemma byte_xor_cancel (a b : byte) : byte_xor (byte_xor a b) b = a.
Proof.
  apply byte_to_Z_inj. rewrite !byte_to_Z_xor.
  rewrite Z.lxor_assoc, Z.lxor_nilpotent, Z.lxor_0_r. reflexivity.
Qed.

Lemma xor_bytes_length (a b : bytes) :
  length (xor_bytes a b) = Nat.min (length a) (length b).
Proof.
  revert b. induction a as [| x a IH]; intros [| y b]; simpl; auto.
Qed.

Lemma xor_bytes_cancel (a b : bytes) :
  (length a <= length b)%nat -> xor_bytes (xor_bytes a b) b = a.
Proof.
  revert b. induction a as [| x a IH]; intros [| y b] H; simpl in *;
    try reflexivity; try lia.
  rewrite byte_xor_cancel, IH by lia. reflexivity.
Qed.

(** ** CRC-32 stays within 32 bits *)

Lemma crc32_shift_range (c : Z) : 0 <= c < 2 ^ 32 -> 0 <= crc32_shift c < 2 ^ 32.
Proof.
  intros Hc. unfold crc32_shift.
  assert (Hs : 0 <= Z.shiftr c 1 < 2 ^ 32).
  { rewrite Z.shiftr_div_pow2 by lia.
    change (2 ^ 1) with 2. change (2 ^ 32) with 4294967296 in *. lia. }
  destruct (Z.odd c); [| exact Hs].
  apply Z_lxor_lt_pow2; lia.
Qed.

Lemma crc32_update_range (c : Z) (b : byte) :
  0 <= c < 2 ^ 32 -> 0 <= crc32_update c b < 2 ^ 32.
Proof.
  intros Hc. unfold crc32_update.
  assert (H : 0 <= Z.lxor c (byte_to_Z b) < 2 ^ 32)
    by (apply Z_lxor_lt_pow2; [lia | lia | pose proof (byte_to_Z_range b); lia]).
  do 8 (apply crc32_shift_range in H). exact H.
Qed.

Lemma crc32_range (data : bytes) : 0 <= crc32 data < 2 ^ 32.
Proof.
  unfold crc32.
  assert (H : forall c, 0 <= c < 2 ^ 32 ->
                        0 <= fold_left crc32_update data c < 2 ^ 32).
  { induction data as [| b data IH]; intros c Hc; simpl; [exact Hc |].
    apply IH, crc32_update_range, Hc. }
  apply Z_lxor_lt_pow2; [lia | apply H; lia | lia].
Qed.

Lemma crc32_masked (data : bytes) : Z.land (crc32 data) 0xffffffff = crc32 data.
Proof.
  change 0xffffffff with (Z.ones 32).
  rewrite Z.land_ones by lia. apply Z.mod_small, crc32_range.
Qed.

(** ** struct *)

Lemma int_from_bytes_big_u32_be (v : Z) :
  0 <= v < 2 ^ 32 -> int_from_bytes_big (u32_be v) = v.
Proof.
  intros Hv. unfold int_from_bytes_big, u32_be. simpl.
  rewrite !byte_to_of_Z, !Z.shiftr_div_pow2 by lia.
  change (2 ^ 32) with 4294967296 in Hv.
  change (2 ^ 24) with 16777216. change (2 ^ 16) with 65536.
  change (2 ^ 8) with 256. lia.
Qed.

Lemma is_u32_true (v : Z) : is_u32 v = true <-> 0 <= v < 2 ^ 32.
Proof. unfold is_u32. lia. Qed.

Lemma struct_unpack_pack (a b : Z) (metadata : bytes) :
  struct_pack_II a b = Ok metadata -> struct_unpack_II metadata = Ok (a, b).
Proof.
  unfold struct_pack_II. intros H.
  destruct (is_u32 a) eqn:Ha; [| discriminate].
  destruct (is_u32 b) eqn:Hb; [| discriminate].
  apply is_u32_true in Ha, Hb. cbn [andb] in H.
  assert (E : metadata = u32_be a ++ u32_be b) by congruence.
  rewrite E.
  change (struct_unpack_II (u32_be a ++ u32_be b))
    with (Ok (int_from_bytes_big (u32_be a), int_from_bytes_big (u32_be b))).
  rewrite !int_from_bytes_big_u32_be by assumption. reflexivity.
Qed.

Lemma struct_pack_length (a b : Z) (metadata : bytes) :
  struct_pack_II a b = Ok metadata -> length metadata = 8%nat.
Proof.
  unfold struct_pack_II. destruct (is_u32 a && is_u32 b); [| discriminate].
  intros H. injection H as <-. reflexivity.
Qed.

(** ** PKCS#7 *)

Lemma pad_length (data : bytes) :
  length (pad data) = ((length data / 16 + 1) * 16)%nat.
Proof.
  unfold pad, block_size. rewrite length_app, repeat_length. lia.
Qed.

Lemma last_app_repeat {A} (l : list A) (x d : A) (n : nat) :
  List.last (l ++ repeat x (S n)) d = x.
Proof.
  replace (repeat x (S n)) with (repeat x n ++ [x])
    by (symmetry; apply (repeat_cons n x)).
  rewrite app_assoc. apply last_last.
Qed.

Lemma unpad_pad (data : bytes) : unpad (pad data) = Ok data.
Proof.
  unfold unpad. rewrite pad_length. unfold pad, block_size.
  set (n := length data).
  set (p := (16 - n mod 16)%nat).
  assert (Hp : (1 <= p <= 16)%nat) by (unfold p; lia).
  assert (Hlen : ((n / 16 + 1) * 16 = n + p)%nat) by (unfold p; lia).
  destruct p as [| p'] eqn:Ep; [lia |].
  rewrite last_app_repeat, byte_to_of_Z.
  rewrite Z.mod_small by lia. rewrite Nat2Z.id.
  replace ((n / 16 + 1) * 16 =? 0)%nat with false by lia.
  replace (((n / 16 + 1) * 16) mod 16 =? 0)%nat with true by lia.
  replace (S p' <? 1)%nat with false by lia.
  replace (Nat.min 16 ((n / 16 + 1) * 16) <? S p')%nat with false by lia.
  rewrite Hlen. replace (n + S p' - S p')%nat with n by lia.
  cbn [negb orb]. subst n.
  rewrite drop_app_length, take_app_length.
  rewrite bool_decide_eq_true_2 by reflexivity. reflexivity.
Qed.

(** Every way [unpad] has of accepting its input leaves a whole number of
    blocks minus at least one byte. *)
Lemma unpad_Ok_length (padded_data data : bytes) :
  unpad padded_data = Ok data ->
  (length padded_data mod 16 = 0 /\ length data < length padded_data)%nat.
Proof.
  unfold unpad, block_size. intros H.
  destruct (length padded_data =? 0)%nat eqn:E0; [discriminate |].
  destruct (length padded_data mod 16 =? 0)%nat eqn:E1; [| discriminate].
  cbn [negb] in H.
  set (p := Z.to_nat (byte_to_Z (List.last padded_data x00))) in *.
  destruct ((p <? 1)%nat || (Nat.min 16 (length padded_data) <? p)%nat) eqn:E2;
    [discriminate |].
  destruct (negb _); [discriminate |]. injection H as <-.
  rewrite length_take. lia.
Qed.

(** ** Bit strings *)

Lemma format_08b_bits (b : byte) : Forall is_bit (format_08b b).
Proof.
  unfold format_08b. apply Forall_map, Forall_forall. intros i _.
  unfold is_bit. destruct (Z.testbit (byte_to_Z b) i); simpl; auto.
Qed.

Lemma binary_data_bits (data : bytes) : Forall is_bit (binary_data data).
Proof.
  unfold binary_data. induction data as [| b data IH]; cbn [flat_map].
  - constructor.
  - apply Forall_app. split; [apply format_08b_bits | exact IH].
Qed.

Lemma format_08b_length (b : byte) : length (format_08b b) = 8%nat.
Proof. reflexivity. Qed.

Lemma binary_data_length (data : bytes) :
  length (binary_data data) = (8 * length data)%nat.
Proof.
  unfold binary_data. induction data as [| b data IH]; [reflexivity |].
  cbn [flat_map]. rewrite length_app, IH, format_08b_length. simpl. lia.
Qed.

Lemma ecc_data_length (binary : list Z) :
  length (ecc_data binary) = (length binary * 2)%nat.
Proof.
  unfold ecc_data. induction binary as [| b binary IH]; simpl; [reflexivity |].
  rewrite IH. lia.
Qed.

Lemma ecc_data_bits (binary : list Z) :
  Forall is_bit binary -> Forall is_bit (ecc_data binary).
Proof.
  unfold ecc_data. induction 1 as [| b binary Hb _ IH]; cbn [flat_map app].
  - constructor.
  - constructor; [exact Hb |]. constructor; [exact Hb | exact IH].
Qed.

Lemma error_correct_ecc_data_app (binary tail : list Z) :
  Forall is_bit binary ->
  error_correct (ecc_data binary ++ tail) = binary ++ error_correct tail.
Proof.
  unfold ecc_data. induction 1 as [| b binary Hb _ IH]; [reflexivity |].
  cbn [flat_map app error_correct]. rewrite IH.
  destruct Hb as [-> | ->]; reflexivity.
Qed.

Lemma pack_bits_format_08b (b : byte) (rest : list Z) :
  pack_bits (format_08b b ++ rest) = byte_to_Z b :: pack_bits rest.
Proof. destruct b; reflexivity. Qed.


Lemma pack_bits_binary_data (data : bytes) (tail : list Z) :
  pack_bits (binary_data data ++ tail) = map byte_to_Z data ++ pack_bits tail.
Proof.
  unfold binary_data. induction data as [| b data IH]; [reflexivity |].
  cbn [flat_map map]. rewrite <- app_assoc, pack_bits_format_08b, IH.
  reflexivity.
Qed.



(** ** The second-least-significant bit *)

Lemma second_lsb_testbit (v : Z) : second_lsb v = Z.b2z (Z.testbit v 1).
Proof.
  unfold second_lsb. change 1 with (Z.ones 1) at 2.
  rewrite Z.land_ones by lia. change (2 ^ 1) with 2.
  rewrite <- Z.bit0_mod, Z.shiftr_spec by lia. reflexivity.
Qed.

Lemma testbit_flip (v k : Z) :
  0 <= k ->
  Z.testbit (Z.lxor v (Z.shiftl 1 1)) k = xorb (Z.testbit v k) (k =? 1).
Proof.
  intros Hk. rewrite Z.lxor_spec. f_equal.
  change (Z.shiftl 1 1) with (2 ^ 1).
  rewrite Z.pow2_bits_eqb by lia. apply Z.eqb_sym.
Qed.

Lemma second_lsb_set (v bit : Z) :
  is_bit bit -> second_lsb (set_second_lsb v bit) = bit.
Proof.
  intros Hb. unfold set_second_lsb.
  destruct (second_lsb v =? bit) eqn:E; [lia |].
  rewrite second_lsb_testbit in *. rewrite testbit_flip by lia.
  change (1 =? 1) with true.
  destruct (Z.testbit v 1), Hb as [-> | ->]; simpl in *; lia.
Qed.

Lemma testbit_set_second_lsb (v bit k : Z) :
  k <> 1 -> Z.testbit (set_second_lsb v bit) k = Z.testbit v k.
Proof.
  intros Hk. unfold set_second_lsb.
  destruct (second_lsb v =? bit); [reflexivity |].
  destruct (Z.neg_nonneg_cases k) as [Hn | Hn].
  - rewrite !Z.testbit_neg_r by lia. reflexivity.
  - rewrite testbit_flip by lia.
    replace (k =? 1) with false by lia. apply xorb_false_r.
Qed.

Lemma set_second_lsb_range (v bit : Z) :
  0 <= v < 256 -> 0 <= set_second_lsb v bit < 256.
Proof.
  intros Hv. unfold set_second_lsb.
  destruct (second_lsb v =? bit); [exact Hv |].
  apply (Z_lxor_lt_pow2 _ _ 8); [lia | exact Hv |].
  change (Z.shiftl 1 1) with 2. change (2 ^ 8) with 256. lia.
Qed.

(** ** The embedding loop *)

Lemma embed_loop_step (idx : nat) (indices : list nat) (bits : list Z)
    (bit_index : nat) (flat_pixels : list Z) (modifications : nat)
    (bit pixel_val : Z) :
  bits !! bit_index = Some bit ->
  flat_pixels !! idx = Some pixel_val ->
  exists modifications',
    embed_loop (idx :: indices) bits bit_index flat_pixels modifications
    = embed_loop indices bits (S bit_index)
        (<[idx := set_second_lsb pixel_val bit]> flat_pixels) modifications'.
Proof.
  intros Hb Hp. cbn [embed_loop]. rewrite Hb, Hp. unfold set_second_lsb.
  destruct (second_lsb pixel_val =? bit).
  - exists modifications. rewrite list_insert_id by exact Hp. reflexivity.
  - exists (S modifications). reflexivity.
Qed.

Lemma embed_loop_spec (indices : list nat) (bits : list Z) :
  forall (bit_index : nat) (flat_pixels : list Z) (modifications : nat),
    NoDup indices ->
    (forall idx, In idx indices -> (idx < length flat_pixels)%nat) ->
    exists written modifications',
      embed_loop indices bits bit_index flat_pixels modifications
      = Ok (written, modifications')
      /\ length written = length flat_pixels
      /\ (forall j idx bit pixel_val,
             indices !! j = Some idx ->
             bits !! (bit_index + j)%nat = Some bit ->
             flat_pixels !! idx = Some pixel_val ->
             written !! idx = Some (set_second_lsb pixel_val bit))
      /\ (forall idx,
             (forall j, indices !! j = Some idx ->
                        bits !! (bit_index + j)%nat = None) ->
             written !! idx = flat_pixels !! idx).
Proof.
  induction indices as [| idx0 indices IH];
    intros bit_index flat_pixels modifications Hnd Hin.
  - exists flat_pixels, modifications. cbn [embed_loop].
    repeat split. intros j idx bit v Hj. discriminate.
  - destruct (bits !! bit_index) as [bit0 |] eqn:Hb0.
    + destruct (lookup_lt_is_Some_2 flat_pixels idx0) as [v0 Hv0];
        [apply Hin; left; reflexivity |].
      destruct (embed_loop_step idx0 indices bits bit_index flat_pixels
                  modifications bit0 v0 Hb0 Hv0) as [m1 Estep].
      rewrite Estep. clear Estep.
      apply NoDup_cons in Hnd as [Hnotin Hnd].
      destruct (IH (S bit_index) (<[idx0 := set_second_lsb v0 bit0]> flat_pixels)
                  m1 Hnd) as (written & m' & Eloop & Hlen & Hset & Hkeep).
      { intros idx Hidx. rewrite length_insert. apply Hin. right. exact Hidx. }
      exists written, m'. split; [exact Eloop |].
      split; [rewrite Hlen; apply length_insert |].
      split.
      * intros [| j] idx bit v Hj Hbit Hv.
        -- cbn in Hj. injection Hj as <-.
           rewrite Nat.add_0_r, Hb0 in Hbit. injection Hbit as <-.
           rewrite Hkeep.
           ++ rewrite list_lookup_insert_eq; [congruence |].
              apply lookup_lt_is_Some_1. eauto.
           ++ intros j Hj. exfalso. apply Hnotin.
              apply list_elem_of_lookup. eauto.
        -- cbn in Hj. apply (Hset j idx bit v Hj).
           ++ rewrite <- Hbit. f_equal. lia.
           ++ rewrite list_lookup_insert_ne; [exact Hv |].
              intros ->. apply Hnotin. apply list_elem_of_lookup. eauto.
      * intros idx Hnone.
        assert (idx <> idx0) as Hne.
        { intros ->. specialize (Hnone O eq_refl).
          rewrite Nat.add_0_r, Hb0 in Hnone. discriminate. }
        rewrite Hkeep.
        -- apply list_lookup_insert_ne. congruence.
        -- intros j Hj. specialize (Hnone (S j) Hj).
           rewrite <- Hnone. f_equal. lia.
    + exists flat_pixels, modifications. cbn [embed_loop]. rewrite Hb0.
      repeat split.
      intros j idx bit v _ Hbit. exfalso.
      apply lookup_ge_None in Hb0. apply lookup_lt_Some in Hbit. lia.
Qed.

(** ** The extraction loop *)

Lemma extract_loop_spec (flat_pixels : list Z) (indices : list nat) :
  (forall idx, In idx indices -> (idx < length flat_pixels)%nat) ->
  exists extracted_bits,
    extract_loop indices flat_pixels = Ok extracted_bits
    /\ length extracted_bits = length indices
    /\ (forall j idx pixel_val,
           indices !! j = Some idx ->
           flat_pixels !! idx = Some pixel_val ->
           extracted_bits !! j = Some (second_lsb pixel_val)).
Proof.
  induction indices as [| idx0 indices IH]; intros Hin.
  - exists []. repeat split. intros j idx v Hj. discriminate.
  - destruct (lookup_lt_is_Some_2 flat_pixels idx0) as [v0 Hv0];
      [apply Hin; left; reflexivity |].
    destruct IH as (ebits & E & Hlen & Hread);
      [intros idx Hidx; apply Hin; right; exact Hidx |].
    exists (second_lsb v0 :: ebits). cbn [extract_loop]. rewrite Hv0, E.
    split; [reflexivity |]. split; [simpl; congruence |].
    intros [| j] idx v Hj Hv.
    + cbn in Hj. injection Hj as <-. cbn. congruence.
    + cbn in Hj |- *. eauto.
Qed.

(** * The claims, under the libraries' contracts *)

Section Properties.

Variable hashlib_sha256 : bytes -> bytes.
Variable hashlib_pbkdf2_hmac : string -> bytes -> bytes -> Z -> Z -> bytes.
Variable AES_encrypt_block : bytes -> bytes -> bytes.
Variable AES_decrypt_block : bytes -> bytes -> bytes.
Variable rng_state : Type.
Variable RandomState_seed : Z -> rng_state.
Variable RandomState_permutation : rng_state -> nat -> list nat * rng_state.
Variable file : Type.
Variable PIL_decode_RGB : file -> result Image.
Variable PIL_encode_JPEG : Z -> Image -> result file.
Variable fs_writable : gmap string file -> string -> bool.

(** AES is a keyed permutation of 16-byte blocks. *)
Hypothesis AES_decrypt_encrypt_block : forall k b,
  length b = block_size -> AES_decrypt_block k (AES_encrypt_block k b) = b.
Hypothesis AES_encrypt_block_length : forall k b,
  length b = block_size -> length (AES_encrypt_block k b) = block_size.

(** SHA-256 digests have 32 bytes. *)
Hypothesis hashlib_sha256_length : forall m,
  length (hashlib_sha256 m) = 32%nat.

(** [permutation(n)] returns the numbers below [n] in some order. *)
Hypothesis RandomState_permutation_spec : forall st n,
  Permutation (fst (RandomState_permutation st n)) (seq 0 n).

(** A decoded RGB image has three 8-bit channel values per pixel. *)
Hypothesis PIL_decode_RGB_wf : forall f img,
  PIL_decode_RGB f = Ok img -> Image_wf img.

Local Abbreviation world := (world rng_state file).
Local Abbreviation __init__ := (__init__ hashlib_sha256 hashlib_pbkdf2_hmac).
Local Abbreviation cbc_encrypt_blocks := (cbc_encrypt_blocks AES_encrypt_block).
Local Abbreviation cbc_decrypt_blocks := (cbc_decrypt_blocks AES_decrypt_block).
Local Abbreviation cbc_encrypt := (cbc_encrypt AES_encrypt_block).
Local Abbreviation cbc_decrypt := (cbc_decrypt AES_decrypt_block).
Local Abbreviation _aes_encrypt := (_aes_encrypt AES_encrypt_block).
Local Abbreviation _aes_decrypt := (_aes_decrypt AES_decrypt_block).
Local Abbreviation _prepare_data := (_prepare_data AES_encrypt_block).
Local Abbreviation _extract_data_try := (_extract_data_try AES_decrypt_block).
Local Abbreviation _extract_data := (_extract_data AES_decrypt_block).
Local Abbreviation try_offsets := (try_offsets AES_decrypt_block).
Local Abbreviation Image_open := (Image_open rng_state file PIL_decode_RGB).
Local Abbreviation Image_save :=
  (Image_save rng_state file PIL_encode_JPEG fs_writable).
Local Abbreviation np_random_seed := (np_random_seed rng_state RandomState_seed file).
Local Abbreviation np_random_permutation :=
  (np_random_permutation rng_state RandomState_permutation file).
Local Abbreviation permutation_generator :=
  (permutation_generator rng_state RandomState_seed RandomState_permutation file).
Local Abbreviation embed_fallback_try :=
  (embed_fallback_try AES_encrypt_block rng_state RandomState_seed
     RandomState_permutation file PIL_decode_RGB PIL_encode_JPEG fs_writable).
Local Abbreviation embed_fallback :=
  (embed_fallback AES_encrypt_block rng_state RandomState_seed
     RandomState_permutation file PIL_decode_RGB PIL_encode_JPEG fs_writable).
Local Abbreviation extract_fallback_try :=
  (extract_fallback_try AES_decrypt_block rng_state RandomState_seed
     RandomState_permutation file PIL_decode_RGB).
Local Abbreviation extract_fallback :=
  (extract_fallback AES_decrypt_block rng_state RandomState_seed
     RandomState_permutation file PIL_decode_RGB).

(** ** CBC *)

Lemma cbc_encrypt_blocks_length (n : nat) : forall k prev data,
  length prev = block_size -> length data = (n * block_size)%nat ->
  length (cbc_encrypt_blocks n k prev data) = (n * block_size)%nat.
Proof.
  clear - AES_encrypt_block_length.
  induction n as [| n IH]; intros k prev data Hprev Hdata; [reflexivity |].
  cbn [Stego.cbc_encrypt_blocks]. unfold block_size in *.
  assert (Hc : length (AES_encrypt_block k (xor_bytes (take 16 data) prev))
               = 16%nat).
  { apply AES_encrypt_block_length.
    rewrite xor_bytes_length, length_take. unfold block_size. lia. }
  rewrite length_app, Hc, IH; [lia | exact Hc |].
  rewrite length_drop. lia.
Qed.

Lemma cbc_decrypt_encrypt_blocks (n : nat) : forall k prev data,
  length prev = block_size -> length data = (n * block_size)%nat ->
  cbc_decrypt_blocks n k prev (cbc_encrypt_blocks n k prev data) = data.
Proof.
  clear - AES_decrypt_encrypt_block AES_encrypt_block_length.
  induction n as [| n IH]; intros k prev data Hprev Hdata.
  - destruct data; [reflexivity | discriminate].
  - cbn [Stego.cbc_encrypt_blocks Stego.cbc_decrypt_blocks].
    unfold block_size in *.
    set (p := take 16 data).
    assert (Hp : length p = 16%nat) by (unfold p; rewrite length_take; lia).
    assert (Hx : length (xor_bytes p prev) = 16%nat)
      by (rewrite xor_bytes_length; lia).
    set (c := AES_encrypt_block k (xor_bytes p prev)).
    assert (Hc : length c = 16%nat)
      by (apply AES_encrypt_block_length; exact Hx).
    rewrite (take_app_length' c), (drop_app_length' c) by (symmetry; exact Hc).
    unfold c at 1. rewrite AES_decrypt_encrypt_block by exact Hx.
    rewrite xor_bytes_cancel by lia.
    rewrite IH; [apply take_drop | exact Hc |].
    rewrite length_drop. lia.
Qed.

(** ** The framer *)

Lemma _prepare_data_Ok (self : F5Steganography) (iv secret_data : bytes) :
  length iv = 16%nat -> Z.of_nat (length secret_data) < 2 ^ 32 ->
  _prepare_data self iv secret_data
  = Ok (iv ++ cbc_encrypt_blocks (length (pad (frame secret_data)) / 16)
                (key self) iv (pad (frame secret_data))).
Proof.
  drop_unused.
  intros Hiv Hlen.
  unfold Stego._prepare_data, struct_pack_II.
  rewrite crc32_masked.
  pose proof (crc32_range secret_data) as Hcrc.
  replace (is_u32 (Z.of_nat (length secret_data))) with true
    by (symmetry; apply is_u32_true; lia).
  replace (is_u32 (crc32 secret_data)) with true
    by (symmetry; apply is_u32_true; lia).
  cbn [andb rbind].
  unfold Stego._aes_encrypt, Stego.cbc_encrypt, block_size.
  rewrite Hiv. cbn [Nat.eqb negb].
  rewrite <- app_assoc. fold (frame secret_data).
  rewrite pad_length.
  replace (((length (frame secret_data) / 16 + 1) * 16) mod 16 =? 0)%nat
    with true by lia.
  reflexivity.
Qed.

Lemma frame_length (secret_data : bytes) :
  length (frame secret_data) = (8 + length secret_data)%nat.
Proof. drop_unused. reflexivity. Qed.

Lemma _aes_decrypt_encrypt (self : F5Steganography) (iv data : bytes) :
  length iv = 16%nat ->
  _aes_decrypt self iv
    (cbc_encrypt_blocks (length (pad data) / 16) (key self) iv (pad data))
  = Ok data.
Proof.
  clear - AES_decrypt_encrypt_block AES_encrypt_block_length.
  intros Hiv.
  assert (Hpad : length (pad data) = (length (pad data) / 16 * 16)%nat)
    by (rewrite pad_length; lia).
  unfold Stego._aes_decrypt, Stego.cbc_decrypt, block_size.
  rewrite Hiv. cbn [Nat.eqb negb].
  rewrite cbc_encrypt_blocks_length by (unfold block_size; assumption).
  unfold block_size.
  replace ((length (pad data) / 16 * 16) mod 16 =? 0)%nat with true by lia.
  replace (length (pad data) / 16 * 16 / 16)%nat
    with (length (pad data) / 16)%nat by lia.
  cbn [negb rbind].
  rewrite cbc_decrypt_encrypt_blocks by (unfold block_size; assumption).
  apply unpad_pad.
Qed.

Lemma _extract_data_frame (self : F5Steganography) (raw_data secret_data : bytes) :
  (16 <= length raw_data)%nat ->
  Z.of_nat (length secret_data) < 2 ^ 32 ->
  _aes_decrypt self (take 16 raw_data) (drop 16 raw_data)
  = Ok (frame secret_data) ->
  _extract_data self raw_data = Some secret_data.
Proof.
  drop_unused.
  intros Hraw Hlen Hdec.
  unfold Stego._extract_data, Stego._extract_data_try.
  replace (length raw_data <? 16)%nat with false by lia.
  rewrite Hdec. cbn [rbind].
  rewrite frame_length.
  replace (8 <=? 8 + length secret_data)%nat with true by lia.
  pose proof (crc32_range secret_data) as Hcrc.
  change (take 8 (frame secret_data))
    with (u32_be (Z.of_nat (length secret_data)) ++ u32_be (crc32 secret_data)).
  rewrite (struct_unpack_pack (Z.of_nat (length secret_data)) (crc32 secret_data)).
  2: { unfold struct_pack_II.
       replace (is_u32 (Z.of_nat (length secret_data))) with true
         by (symmetry; apply is_u32_true; lia).
       replace (is_u32 (crc32 secret_data)) with true
         by (symmetry; apply is_u32_true; lia).
       reflexivity. }
  cbn [rbind fst snd].
  replace (8 + Z.of_nat (length secret_data)
           <=? Z.of_nat (8 + length secret_data)) with true by lia.
  change (drop 8 (frame secret_data)) with secret_data.
  rewrite Nat2Z.id, firstn_all, crc32_masked, Z.eqb_refl. reflexivity.
Qed.

Lemma _extract_data_prepare_data (self : F5Steganography)
    (iv secret_data prepared_data : bytes) :
  length iv = 16%nat ->
  _prepare_data self iv secret_data = Ok prepared_data ->
  _extract_data self prepared_data = Some secret_data.
Proof.
  clear - AES_decrypt_encrypt_block AES_encrypt_block_length.
  intros Hiv Hprep.
  assert (Hlen : Z.of_nat (length secret_data) < 2 ^ 32).
  { unfold Stego._prepare_data, struct_pack_II in Hprep.
    destruct (is_u32 (Z.of_nat (length secret_data))) eqn:E;
      [apply is_u32_true in E; lia | discriminate]. }
  rewrite _prepare_data_Ok in Hprep by assumption.
  assert (E : prepared_data
              = iv ++ cbc_encrypt_blocks (length (pad (frame secret_data)) / 16)
                        (key self) iv (pad (frame secret_data)))
    by congruence.
  rewrite E. clear E Hprep.
  apply _extract_data_frame; [rewrite length_app; lia | exact Hlen |].
  rewrite (take_app_length' iv), (drop_app_length' iv) by (symmetry; exact Hiv).
  apply _aes_decrypt_encrypt. exact Hiv.
Qed.

(** ** Claims about the framer *)

Lemma struct_unpack_fields (decrypted : bytes) :
  (8 <= length decrypted)%nat ->
  struct_unpack_II (take 8 decrypted)
  = Ok (length_field decrypted, checksum_field decrypted).
Proof.
  drop_unused.
  intros H.
  do 8 (destruct decrypted as [| ? decrypted]; [simpl in H; lia |]).
  reflexivity.
Qed.

(** What [_extract_data] returns once decryption and unpadding went
    through. *)
Lemma _extract_data_decrypted (self : F5Steganography) (raw_data remaining : bytes) :
  (16 <= length raw_data)%nat ->
  _aes_decrypt self (take 16 raw_data) (drop 16 raw_data) = Ok remaining ->
  _extract_data self raw_data
  = if (8 <=? length remaining)%nat
       && (8 + length_field remaining <=? Z.of_nat (length remaining))
       && (Z.land (crc32 (payload_field remaining)) 0xffffffff
           =? checksum_field remaining)
    then Some (payload_field remaining) else None.
Proof.
  drop_unused.
  intros Hraw Hdec.
  unfold Stego._extract_data, Stego._extract_data_try.
  replace (length raw_data <? 16)%nat with false by lia.
  rewrite Hdec. cbn [rbind].
  destruct (8 <=? length remaining)%nat eqn:E8; [| reflexivity].
  rewrite struct_unpack_fields by lia. cbn [rbind fst snd andb].
  fold (payload_field remaining).
  destruct (8 + length_field remaining <=? Z.of_nat (length remaining));
    [| reflexivity].
  cbn [andb].
  destruct (Z.land (crc32 (payload_field remaining)) 4294967295
            =? checksum_field remaining); reflexivity.
Qed.

(** C4.  [_extract_data] returns [None] exactly when the input has fewer
    than 16 bytes, or decrypting and unpadding the bytes after the first
    16 raises ([_aes_decrypt]: no whole number of blocks, or malformed
    padding), or fewer than 8 bytes remain, or fewer than [8 + length]
    bytes remain, or the CRC-32 of the payload differs from the checksum;
    otherwise it returns the payload [remaining[8:8+length]].  All failures
    give the same value [None]. *)
Theorem _extract_data_outcomes (self : F5Steganography) (raw_data : bytes) :
  (_extract_data self raw_data = None <->
     (length raw_data < 16)%nat
     \/ (exists e, _aes_decrypt self (take 16 raw_data) (drop 16 raw_data)
                   = Raise e)
     \/ (exists remaining,
            _aes_decrypt self (take 16 raw_data) (drop 16 raw_data)
            = Ok remaining
            /\ ((length remaining < 8)%nat
                \/ Z.of_nat (length remaining) < 8 + length_field remaining
                \/ Z.land (crc32 (payload_field remaining)) 0xffffffff
                   <> checksum_field remaining)))
  /\ (forall remaining,
         (16 <= length raw_data)%nat ->
         _aes_decrypt self (take 16 raw_data) (drop 16 raw_data)
         = Ok remaining ->
         (8 <= length remaining)%nat ->
         8 + length_field remaining <= Z.of_nat (length remaining) ->
         Z.land (crc32 (payload_field remaining)) 0xffffffff
         = checksum_field remaining ->
         _extract_data self raw_data = Some (payload_field remaining)).
Proof.
  drop_unused.
  split.
  - destruct (Nat.lt_ge_cases (length raw_data) 16) as [Hshort | Hlong].
    { split; [left; exact Hshort |]. intros _.
      unfold Stego._extract_data.
      replace (length raw_data <? 16)%nat with true by lia. reflexivity. }
    destruct (_aes_decrypt self (take 16 raw_data) (drop 16 raw_data))
      as [remaining | e] eqn:Hdec.
    + rewrite (_extract_data_decrypted self raw_data remaining Hlong Hdec).
      split.
      * intros H. right. right. exists remaining. split; [reflexivity |].
        destruct (8 <=? length remaining)%nat eqn:E1; [| left; lia].
        destruct (8 + length_field remaining <=? Z.of_nat (length remaining))
          eqn:E2; [| right; left; lia].
        destruct (Z.land (crc32 (payload_field remaining)) 4294967295
                  =? checksum_field remaining) eqn:E3; [discriminate |].
        right. right. lia.
      * intros [H | [[e H] | (r & Hr & H)]]; [lia | discriminate |].
        injection Hr as <-.
        destruct H as [H | [H | H]].
        -- replace (8 <=? length remaining)%nat with false by lia.
           reflexivity.
        -- replace (8 + length_field remaining <=? Z.of_nat (length remaining))
             with false by lia.
           rewrite andb_false_r. reflexivity.
        -- replace (Z.land (crc32 (payload_field remaining)) 4294967295
                    =? checksum_field remaining) with false by lia.
           rewrite andb_false_r. reflexivity.
    + split; [intros _; right; left; eauto |]. intros _.
      unfold Stego._extract_data, Stego._extract_data_try.
      replace (length raw_data <? 16)%nat with false by lia.
      rewrite Hdec. reflexivity.
  - intros remaining Hraw Hdec H8 Hlen Hcrc.
    rewrite (_extract_data_decrypted self raw_data remaining Hraw Hdec).
    replace (8 <=? length remaining)%nat with true by lia.
    replace (8 + length_field remaining <=? Z.of_nat (length remaining))
      with true by lia.
    rewrite Hcrc, Z.eqb_refl. reflexivity.
Qed.

(** C3, for payloads whose length fits the 32-bit length field.
    [_prepare_data] returns the 16-byte IV followed by the AES-CBC
    encryption, under the session key and that IV, of the PKCS#7-padded
    bytes [length (u32, big-endian) || CRC32 (u32, big-endian) || payload];
    decrypting and unpadding the ciphertext gives these bytes back. *)
Theorem _prepare_data_wire_format (self : F5Steganography)
    (iv secret_data : bytes) :
  length iv = 16%nat ->
  Z.of_nat (length secret_data) < 2 ^ 32 ->
  exists ciphertext : bytes,
    _prepare_data self iv secret_data = Ok (iv ++ ciphertext)
    /\ cbc_encrypt (key self) iv
         (pad (u32_be (Z.of_nat (length secret_data))
               ++ u32_be (crc32 secret_data) ++ secret_data))
       = Ok ciphertext
    /\ (0 < length ciphertext)%nat
    /\ (length ciphertext mod 16 = 0)%nat
    /\ _aes_decrypt self iv ciphertext
       = Ok (u32_be (Z.of_nat (length secret_data))
             ++ u32_be (crc32 secret_data) ++ secret_data).
Proof.
  clear - AES_decrypt_encrypt_block AES_encrypt_block_length.
  intros Hiv Hlen. fold (frame secret_data).
  exists (cbc_encrypt_blocks (length (pad (frame secret_data)) / 16)
            (key self) iv (pad (frame secret_data))).
  assert (Hpad : length (pad (frame secret_data))
                 = (length (pad (frame secret_data)) / 16 * 16)%nat)
    by (rewrite pad_length; lia).
  split; [apply _prepare_data_Ok; assumption |].
  split.
  { unfold Stego.cbc_encrypt, block_size. rewrite Hiv.
    cbn [Nat.eqb negb].
    replace (length (pad (frame secret_data)) mod 16 =? 0)%nat
      with true by lia.
    reflexivity. }
  rewrite cbc_encrypt_blocks_length by (unfold block_size; assumption).
  unfold block_size.
  split; [rewrite pad_length; lia |].
  split; [lia |].
  apply _aes_decrypt_encrypt. exact Hiv.
Qed.

(** ** Claims about the redundancy code *)

Lemma format_08b_lookup (b : byte) (i : nat) :
  (i < 8)%nat ->
  format_08b b !! i = Some (Z.b2z (Z.testbit (byte_to_Z b) (7 - Z.of_nat i))).
Proof.
  drop_unused.
  intros Hi. do 8 (destruct i as [| i]; [reflexivity |]). lia.
Qed.

Lemma binary_data_lookup (rawBytes : bytes) : forall (j i : nat) (b : byte),
  rawBytes !! j = Some b -> (i < 8)%nat ->
  binary_data rawBytes !! (8 * j + i)%nat
  = Some (Z.b2z (Z.testbit (byte_to_Z b) (7 - Z.of_nat i))).
Proof.
  drop_unused.
  unfold binary_data.
  induction rawBytes as [| b0 rawBytes IH]; intros j i b Hj Hi;
    [discriminate |].
  cbn [flat_map]. destruct j as [| j].
  - cbn in Hj. injection Hj as <-.
    rewrite lookup_app_l by (rewrite format_08b_length; lia).
    rewrite Nat.mul_0_r. apply format_08b_lookup, Hi.
  - cbn in Hj.
    rewrite lookup_app_r by (rewrite format_08b_length; lia).
    rewrite format_08b_length.
    replace (8 * S j + i - 8)%nat with (8 * j + i)%nat by lia.
    apply IH; assumption.
Qed.

Lemma ecc_data_lookup (binary : list Z) : forall (k : nat) (bit : Z),
  binary !! k = Some bit ->
  ecc_data binary !! (2 * k)%nat = Some bit
  /\ ecc_data binary !! (2 * k + 1)%nat = Some bit.
Proof.
  drop_unused.
  unfold ecc_data.
  induction binary as [| b binary IH]; intros k bit Hk; [discriminate |].
  cbn [flat_map app]. destruct k as [| k].
  - cbn in Hk. injection Hk as <-. split; reflexivity.
  - cbn in Hk. destruct (IH k bit Hk) as [H0 H1].
    replace (2 * S k)%nat with (S (S (2 * k))) by lia.
    replace (S (S (2 * k)) + 1)%nat with (S (S (2 * k + 1))) by lia.
    split; assumption.
Qed.

(** C6.  The bitstream holds, for byte [j] and [i] below 8, bit [7 - i] of
    that byte twice, at positions [2 * (8 * j + i)] and the next one; it has
    [8 * len * 2] bits; and the pairwise OR rule applied to it returns the
    MSB-first bit sequence of the bytes. *)
Theorem redundancy_roundtrip (rawBytes : bytes) :
  length (ecc_data (binary_data rawBytes)) = (8 * length rawBytes * 2)%nat
  /\ (forall (j i : nat) (b : byte),
         rawBytes !! j = Some b -> (i < 8)%nat ->
         let bit := Z.b2z (Z.testbit (byte_to_Z b) (7 - Z.of_nat i)) in
         binary_data rawBytes !! (8 * j + i)%nat = Some bit
         /\ ecc_data (binary_data rawBytes) !! (2 * (8 * j + i))%nat = Some bit
         /\ ecc_data (binary_data rawBytes) !! (2 * (8 * j + i) + 1)%nat
            = Some bit)
  /\ error_correct (ecc_data (binary_data rawBytes)) = binary_data rawBytes.
Proof.
  drop_unused.
  split; [| split].
  - rewrite ecc_data_length, binary_data_length. reflexivity.
  - intros j i b Hj Hi bit.
    pose proof (binary_data_lookup rawBytes j i b Hj Hi) as Hb.
    split; [exact Hb |]. apply ecc_data_lookup, Hb.
  - rewrite <- (app_nil_r (ecc_data (binary_data rawBytes))).
    rewrite error_correct_ecc_data_app by apply binary_data_bits.
    apply app_nil_r.
Qed.

(** ** Claims about [embed_fallback] *)

Lemma bits_length (prepared_data : bytes) :
  length (ecc_data (binary_data prepared_data))
  = (8 * length prepared_data * 2)%nat.
Proof. drop_unused. rewrite ecc_data_length, binary_data_length. reflexivity. Qed.

(** The capacity check, as the other proofs use it. *)
Lemma embed_fallback_refused (self : F5Steganography) (iv : bytes)
    (cover_path : string) (secret_data : bytes) (output_path : string)
    (w : world) (f : file) (img : Image) (prepared_data : bytes) :
  _prepare_data self iv secret_data = Ok prepared_data ->
  fs w !! cover_path = Some f ->
  PIL_decode_RGB f = Ok img ->
  (width img * height img * 3 < 8 * length prepared_data * 2)%nat ->
  embed_fallback self iv cover_path secret_data output_path w
  = (Ok (false,
         ("Insufficient capacity: need "
          ++ str_of_Z (Z.of_nat (8 * length prepared_data * 2))
          ++ " bits, have "
          ++ str_of_Z (Z.of_nat (width img * height img * 3)))%string),
     w).
Proof.
  drop_unused.
  intros Hprep Hfile Hdec Hcap.
  unfold Stego.embed_fallback, try_except, Stego.embed_fallback_try,
    bind, lift, Stego.Image_open.
  rewrite Hprep, Hfile, Hdec, bits_length.
  replace (width img * height img * 3 <? 8 * length prepared_data * 2)%nat
    with true by lia.
  reflexivity.
Qed.

(** C5.  When the redundancy-coded bitstream is longer than the carrier
    has slots, [embed_fallback] returns the capacity failure and leaves
    the world as it was: no file is written, no pixel changed. *)
Theorem embed_fallback_capacity (self : F5Steganography) (iv : bytes)
    (cover_path : string) (secret_data : bytes) (output_path : string)
    (w : world) (f : file) (img : Image) (prepared_data : bytes) :
  _prepare_data self iv secret_data = Ok prepared_data ->
  fs w !! cover_path = Some f ->
  PIL_decode_RGB f = Ok img ->
  (width img * height img * 3 < 8 * length prepared_data * 2)%nat ->
  embed_fallback self iv cover_path secret_data output_path w
  = (Ok (false,
         ("Insufficient capacity: need "
          ++ str_of_Z (Z.of_nat (8 * length prepared_data * 2))
          ++ " bits, have "
          ++ str_of_Z (Z.of_nat (width img * height img * 3)))%string),
     w).
Proof.
  drop_unused.
  intros Hprep Hfile Hdec Hcap.
  unfold Stego.embed_fallback, try_except, Stego.embed_fallback_try,
    bind, lift, Stego.Image_open.
  rewrite Hprep, Hfile, Hdec, bits_length.
  replace (width img * height img * 3 <? 8 * length prepared_data * 2)%nat
    with true by lia.
  reflexivity.
Qed.

(** The slots the generator hands out for a carrier of [n] slots. *)
Lemma permutation_generator_run (seed_ : Z) (n : nat) (w : world) :
  permutation_generator seed_ n w
  = (Ok (fst (RandomState_permutation (RandomState_seed (seed_ mod 2 ^ 32)) n)),
     {| fs := fs w;
        rng := snd (RandomState_permutation
                      (RandomState_seed (seed_ mod 2 ^ 32)) n) |}).
Proof.
  drop_unused.
  unfold Stego.permutation_generator, bind, Stego.np_random_seed,
    Stego.np_random_permutation.
  assert (H : 0 <= seed_ mod 2 ^ 32 < 2 ^ 32)
    by (apply Z.mod_pos_bound; reflexivity).
  replace ((0 <=? seed_ mod 2 ^ 32) && (seed_ mod 2 ^ 32 <? 2 ^ 32))
    with true by lia.
  cbn [fs rng].
  destruct (RandomState_permutation (RandomState_seed (seed_ mod 2 ^ 32)) n).
  reflexivity.
Qed.

Lemma permutation_slots (st : rng_state) (n : nat) :
  NoDup (fst (RandomState_permutation st n))
  /\ (forall idx, In idx (fst (RandomState_permutation st n)) <-> (idx < n)%nat)
  /\ length (fst (RandomState_permutation st n)) = n.
Proof.
  clear - RandomState_permutation_spec.
  pose proof (RandomState_permutation_spec st n) as HP.
  split; [| split].
  - rewrite HP. apply NoDup_seq.
  - intros idx. split; intros H.
    + eapply Permutation_in in H; [| exact HP]. apply in_seq in H. lia.
    + eapply Permutation_in; [symmetry; exact HP |]. apply in_seq. lia.
  - rewrite (Permutation_length HP). apply length_seq.
Qed.

(** [embed_fallback] once the capacity check has passed. *)
Lemma embed_fallback_run (self : F5Steganography) (iv : bytes)
    (cover_path : string) (secret_data : bytes) (output_path : string)
    (w : world) (f : file) (img : Image) (prepared_data : bytes) :
  _prepare_data self iv secret_data = Ok prepared_data ->
  fs w !! cover_path = Some f ->
  PIL_decode_RGB f = Ok img ->
  (8 * length prepared_data * 2 <= width img * height img * 3)%nat ->
  let drawn := RandomState_permutation
                 (RandomState_seed (seed self mod 2 ^ 32))
                 (width img * height img * 3) in
  let w1 := {| fs := fs w; rng := snd drawn |} in
  embed_fallback self iv cover_path secret_data output_path w
  = match embed_loop (fst drawn) (ecc_data (binary_data prepared_data)) 0
            (pixels img) 0 with
    | Raise e => (Ok (false, ("Fallback embedding failed: " ++ e)%string), w1)
    | Ok written =>
        if fs_writable (fs w) output_path then
          match PIL_encode_JPEG (quality self)
                  {| width := width img; height := height img;
                     pixels := fst written |} with
          | Ok stego =>
              (Ok (true,
                   ("Fallback embedding successful - Embedded "
                    ++ str_of_Z (Z.of_nat (length secret_data))
                    ++ " bytes")%string),
               {| fs := <[output_path := stego]> (fs w); rng := snd drawn |})
          | Raise e =>
              (Ok (false, ("Fallback embedding failed: " ++ e)%string), w1)
          end
        else (Ok (false,
                  ("Fallback embedding failed: "
                   ++ ("cannot write " ++ output_path))%string), w1)
    end.
Proof.
  drop_unused.
  intros Hprep Hfile Hdec Hcap drawn w1.
  unfold Stego.embed_fallback, try_except, Stego.embed_fallback_try.
  unfold bind at 1. unfold lift at 1. rewrite Hprep.
  unfold bind at 1. unfold Stego.Image_open. rewrite Hfile, Hdec.
  rewrite bits_length.
  replace (width img * height img * 3 <? 8 * length prepared_data * 2)%nat
    with false by lia.
  unfold bind at 1. rewrite permutation_generator_run.
  fold drawn. fold w1.
  unfold bind at 1. unfold lift at 1.
  destruct (embed_loop drawn.1 (ecc_data (binary_data prepared_data)) 0
              (pixels img) 0) as [written | e]; [| reflexivity].
  unfold bind, Stego.Image_save, ret. cbn [fs rng w1].
  destruct (fs_writable (fs w) output_path); [| reflexivity].
  destruct (PIL_encode_JPEG (quality self) _); reflexivity.
Qed.

(** C7.  After a successful [embed_fallback], the image handed to the
    encoder differs from the cover only as follows: the slot
    [Permutation[i]], for [i] below the length of the bitstream, holds the
    cover's value with its second-least-significant bit set to
    [bitstream[i]] and every other bit unchanged; the slots
    [Permutation[j]] for later [j] hold the cover's values. *)
Theorem embed_fallback_frame (self : F5Steganography) (iv : bytes)
    (cover_path : string) (secret_data : bytes) (output_path : string)
    (w w' : world) (msg : string) (f : file) (img : Image)
    (prepared_data : bytes) :
  _prepare_data self iv secret_data = Ok prepared_data ->
  fs w !! cover_path = Some f ->
  PIL_decode_RGB f = Ok img ->
  embed_fallback self iv cover_path secret_data output_path w
  = (Ok (true, msg), w') ->
  let bitstream := ecc_data (binary_data prepared_data) in
  let permutation :=
    fst (RandomState_permutation (RandomState_seed (seed self mod 2 ^ 32))
           (width img * height img * 3)) in
  exists (written : list Z) (stego : file),
    PIL_encode_JPEG (quality self)
      {| width := width img; height := height img; pixels := written |}
    = Ok stego
    /\ fs w' = <[output_path := stego]> (fs w)
    /\ length written = length (pixels img)
    /\ (forall i slot bit,
           permutation !! i = Some slot -> bitstream !! i = Some bit ->
           exists v v',
             pixels img !! slot = Some v /\ written !! slot = Some v'
             /\ second_lsb v' = bit
             /\ forall k, k <> 1 -> Z.testbit v' k = Z.testbit v k)
    /\ (forall j slot,
           permutation !! j = Some slot -> (length bitstream <= j)%nat ->
           written !! slot = pixels img !! slot).
Proof.
  clear - RandomState_permutation_spec PIL_decode_RGB_wf.
  intros Hprep Hfile Hdec Hrun bitstream permutation.
  destruct (PIL_decode_RGB_wf f img Hdec) as [Hsize _].
  destruct (Nat.lt_ge_cases (width img * height img * 3)
              (8 * length prepared_data * 2)) as [Hcap | Hcap].
  { rewrite (embed_fallback_refused self iv cover_path secret_data
               output_path w f img prepared_data Hprep Hfile Hdec Hcap)
      in Hrun. discriminate. }
  rewrite (embed_fallback_run self iv cover_path secret_data output_path
             w f img prepared_data Hprep Hfile Hdec Hcap) in Hrun.
  cbv zeta in Hrun. fold permutation bitstream in Hrun.
  destruct (permutation_slots (RandomState_seed (seed self mod 2 ^ 32))
              (width img * height img * 3)) as (Hnd & Hin & Hplen).
  fold permutation in Hnd, Hin, Hplen.
  destruct (embed_loop_spec permutation bitstream 0 (pixels img) 0 Hnd)
    as (written & m & Eloop & Hlen & Hset & Hkeep).
  { intros idx Hidx. rewrite Hsize. apply Hin, Hidx. }
  rewrite Eloop in Hrun. cbn [fst] in Hrun.
  destruct (fs_writable (fs w) output_path); [| discriminate].
  destruct (PIL_encode_JPEG (quality self) _) as [stego |] eqn:Eenc;
    [| discriminate].
  injection Hrun as _ <-.
  exists written, stego.
  split; [exact Eenc |]. split; [reflexivity |]. split; [exact Hlen |].
  split.
  - intros i slot bit Hi Hbit.
    destruct (lookup_lt_is_Some_2 (pixels img) slot) as [v Hv].
    { rewrite Hsize. apply Hin. apply list_elem_of_In, list_elem_of_lookup.
      eauto. }
    exists v, (set_second_lsb v bit).
    split; [exact Hv |].
    split; [apply (Hset i slot bit v Hi Hbit Hv) |].
    split.
    + apply second_lsb_set.
      assert (Hbits : Forall is_bit bitstream)
        by apply ecc_data_bits, binary_data_bits.
      eapply Forall_lookup_1; eassumption.
    + intros k Hk. apply testbit_set_second_lsb, Hk.
  - intros j slot Hj Hge. apply Hkeep. intros j' Hj'.
    assert (j' = j) as -> by (eapply NoDup_lookup; eassumption).
    apply lookup_ge_None. cbn. exact Hge.
Qed.

(** ** Claims about the permutation generator and the key material *)

(** C8.  The generator's output depends on [(seed, N)] only, not on the
    state numpy's global generator or the file system was in: any two runs
    return the same sequence, and that sequence lists every slot index
    below [N] exactly once. *)
Theorem permutation_generator_deterministic (seed_ : Z) (N : nat)
    (w1 w2 : world) :
  exists indices : list nat,
    fst (permutation_generator seed_ N w1) = Ok indices
    /\ fst (permutation_generator seed_ N w2) = Ok indices
    /\ Permutation indices (seq 0 N)
    /\ NoDup indices
    /\ length indices = N
    /\ (forall slot, In slot indices <-> (slot < N)%nat).
Proof.
  clear - RandomState_permutation_spec.
  exists (fst (RandomState_permutation (RandomState_seed (seed_ mod 2 ^ 32)) N)).
  rewrite !permutation_generator_run. cbn [fst].
  destruct (permutation_slots (RandomState_seed (seed_ mod 2 ^ 32)) N)
    as (Hnd & Hin & Hlen).
  repeat split; try assumption; try apply Hin.
  apply RandomState_permutation_spec.
Qed.

Lemma fold_left_bytes_acc (b : bytes) : forall acc,
  fold_left (fun acc x => acc * 256 + byte_to_Z x) b acc
  = acc * 256 ^ Z.of_nat (length b) + int_from_bytes_big b.
Proof.
  drop_unused.
  unfold int_from_bytes_big.
  induction b as [| x b IH]; intros acc.
  - simpl. lia.
  - cbn [fold_left length]. rewrite IH, (IH (0 * 256 + byte_to_Z x)).
    rewrite Nat2Z.inj_succ, Z.pow_succ_r by lia. lia.
Qed.

Lemma int_from_bytes_big_app (a b : bytes) :
  int_from_bytes_big (a ++ b)
  = int_from_bytes_big a * 256 ^ Z.of_nat (length b) + int_from_bytes_big b.
Proof.
  drop_unused.
  unfold int_from_bytes_big at 1. rewrite fold_left_app.
  fold (int_from_bytes_big a). apply fold_left_bytes_acc.
Qed.

Lemma int_from_bytes_big_range (b : bytes) :
  0 <= int_from_bytes_big b < 256 ^ Z.of_nat (length b).
Proof.
  drop_unused.
  induction b as [| x b IH] using rev_ind.
  - cbn. lia.
  - rewrite int_from_bytes_big_app, length_app.
    change (int_from_bytes_big [x]) with (0 * 256 + byte_to_Z x).
    pose proof (byte_to_Z_range x).
    cbn [length]. rewrite Nat2Z.inj_add, Z.pow_add_r by lia.
    change (256 ^ Z.of_nat 1) with 256. nia.
Qed.


(** ** The interface of the fallback functions *)


(** ** The round trip *)

Lemma embed_loop_range (indices : list nat) (bits : list Z) :
  forall bit_index flat_pixels modifications written modifications',
    Forall (fun v => 0 <= v < 256) flat_pixels ->
    embed_loop indices bits bit_index flat_pixels modifications
    = Ok (written, modifications') ->
    Forall (fun v => 0 <= v < 256) written.
Proof.
  drop_unused.
  induction indices as [| idx indices IH];
    intros bit_index flat_pixels m written m' Hrange Hloop.
  - cbn in Hloop. congruence.
  - cbn [embed_loop] in Hloop.
    destruct (bits !! bit_index) as [bit |]; [| congruence].
    destruct (flat_pixels !! idx) as [v |] eqn:Hv; [| discriminate].
    destruct (second_lsb v =? bit); [eapply IH; eassumption |].
    eapply IH; [| exact Hloop].
    apply Forall_insert; [exact Hrange |].
    pose proof (set_second_lsb_range v (1 - second_lsb v)) as Hs.
    unfold set_second_lsb in Hs.
    replace (second_lsb v =? 1 - second_lsb v) with false in Hs by lia.
    apply Hs. eapply Forall_lookup_1 in Hrange; [exact Hrange | exact Hv].
Qed.



(** The bits read back from the stego pixels start with the bits that
    were written. *)
Lemma extract_embed_loops (indices : list nat) (bits flat_pixels : list Z) :
  NoDup indices ->
  (forall idx, In idx indices -> (idx < length flat_pixels)%nat) ->
  Forall is_bit bits ->
  (length bits <= length indices)%nat ->
  exists written modifications extracted_bits,
    embed_loop indices bits 0 flat_pixels 0 = Ok (written, modifications)
    /\ length written = length flat_pixels
    /\ extract_loop indices written = Ok extracted_bits
    /\ length extracted_bits = length indices
    /\ take (length bits) extracted_bits = bits.
Proof.
  drop_unused.
  intros Hnd Hin Hbits Hlen.
  destruct (embed_loop_spec indices bits 0 flat_pixels 0 Hnd Hin)
    as (written & m & Eloop & Hwlen & Hset & _).
  destruct (extract_loop_spec written indices) as (ebits & Eex & Helen & Hread).
  { intros idx Hidx. rewrite Hwlen. apply Hin, Hidx. }
  exists written, m, ebits.
  split; [exact Eloop |]. split; [exact Hwlen |].
  split; [exact Eex |]. split; [exact Helen |].
  apply list_eq. intros j.
  destruct (Nat.lt_ge_cases j (length bits)) as [Hj | Hj].
  - rewrite lookup_take_lt by exact Hj.
    destruct (lookup_lt_is_Some_2 bits j Hj) as [bit Hbit].
    destruct (lookup_lt_is_Some_2 indices j ltac:(lia)) as [slot Hslot].
    destruct (lookup_lt_is_Some_2 flat_pixels slot) as [v Hv].
    { apply Hin. apply list_elem_of_In, list_elem_of_lookup. eauto. }
    rewrite (Hread j slot (set_second_lsb v bit) Hslot
               (Hset j slot bit v Hslot Hbit Hv)).
    rewrite second_lsb_set, Hbit; [reflexivity |].
    eapply Forall_lookup_1; eassumption.
  - rewrite lookup_take_ge by exact Hj.
    symmetry. apply lookup_ge_None. exact Hj.
Qed.


(** ** Where the round trip stops

    [extract_fallback] groups all [N div 2] decoded bits into bytes and
    hands every one of them to [_extract_data], the bytes that follow the
    envelope included.  CBC decryption raises unless the bytes after the
    IV are a whole number of blocks, so on a carrier where no offset gives
    such a count nothing is ever found, whatever was embedded. *)

Lemma _extract_data_misaligned (self : F5Steganography) (raw_data : bytes) :
  (length raw_data mod 16 <> 0)%nat -> _extract_data self raw_data = None.
Proof.
  drop_unused.
  intros Hmod. unfold Stego._extract_data.
  destruct (length raw_data <? 16)%nat eqn:E16; [reflexivity |].
  unfold Stego._extract_data_try, Stego._aes_decrypt, Stego.cbc_decrypt,
    block_size.
  rewrite length_take, length_drop.
  replace (16 `min` length raw_data =? 16)%nat with true by lia.
  replace ((length raw_data - 16) mod 16 =? 0)%nat with false by lia.
  reflexivity.
Qed.

Lemma second_lsb_bit (v : Z) : is_bit (second_lsb v).
Proof.
  drop_unused.
  rewrite second_lsb_testbit. unfold is_bit.
  destruct (Z.testbit v 1); auto.
Qed.

Lemma extract_loop_bits (flat_pixels : list Z) (indices : list nat) :
  forall extracted_bits,
    extract_loop indices flat_pixels = Ok extracted_bits ->
    Forall is_bit extracted_bits /\ length extracted_bits = length indices.
Proof.
  drop_unused.
  induction indices as [| idx indices IH]; intros ebits H.
  - cbn in H. injection H as <-. split; [constructor | reflexivity].
  - cbn [extract_loop] in H.
    destruct (flat_pixels !! idx) as [v |]; [| discriminate].
    destruct (extract_loop indices flat_pixels) as [rest |]; [| discriminate].
    cbn in H. injection H as <-.
    destruct (IH rest eq_refl) as [Hb Hl].
    split; [constructor; [apply second_lsb_bit | exact Hb] |].
    cbn. congruence.
Qed.

Lemma error_correct_bits : forall extracted_bits : list Z,
  Forall is_bit (error_correct extracted_bits)
  /\ length (error_correct extracted_bits) = (length extracted_bits / 2)%nat.
Proof.
  drop_unused.
  fix IH 1. intros [| a [| b rest]]; [split; [constructor | reflexivity] .. |].
  destruct (IH rest) as [Hb Hl].
  cbn [error_correct length]. split.
  - constructor; [| exact Hb].
    unfold is_bit. destruct (1 <=? a + b); auto.
  - rewrite Hl. lia.
Qed.

Lemma pack_bits_bytes : forall bits : list Z,
  Forall is_bit bits ->
  Forall (fun v => 0 <= v < 256) (pack_bits bits)
  /\ length (pack_bits bits) = (length bits / 8)%nat.
Proof.
  drop_unused.
  fix IH 1. intros bits Hbits.
  do 8 (destruct bits as [| ?b bits]; [split; [constructor | reflexivity] |]).
  repeat match goal with
         | H : Forall _ (_ :: _) |- _ => apply Forall_cons in H as [? H]
         end.
  destruct (IH bits Hbits) as [Hr Hl].
  cbn [pack_bits length]. split.
  - constructor; [| exact Hr].
    repeat match goal with
           | H : is_bit _ |- _ => destruct H as [-> | ->]
           end; vm_compute; (split; [discriminate | reflexivity]).
  - rewrite Hl. lia.
Qed.

Lemma bytes_of_ints_Ok (ints : list Z) :
  Forall (fun v => 0 <= v < 256) ints ->
  exists data, bytes_of_ints ints = Ok data /\ length data = length ints.
Proof.
  drop_unused.
  induction 1 as [| v ints Hv _ IH].
  - exists []. split; reflexivity.
  - destruct IH as (data & E & Hl).
    exists (byte_of_Z v :: data). cbn [bytes_of_ints].
    replace ((0 <=? v) && (v <? 256)) with true by lia.
    rewrite E. split; [reflexivity | cbn; congruence].
Qed.



(** [extract_fallback] never returns an empty payload: the test
    [if data:] takes it for no data. *)
Lemma try_offsets_not_empty (self : F5Steganography)
    (error_corrected_bits : list Z) (offsets : list nat) (msg : string) :
  try_offsets self error_corrected_bits offsets <> Ok (Some [], msg).
Proof.
  drop_unused.
  induction offsets as [| offset offsets IH]; cbn [Stego.try_offsets];
    [discriminate |].
  destruct (bytes_of_ints _) as [extracted |]; [| discriminate].
  cbn [rbind].
  destruct (_extract_data self extracted) as [[| b data] |];
    [exact IH | discriminate | exact IH].
Qed.

Lemma extract_fallback_not_empty (self : F5Steganography)
    (stego_path : string) (w : world) (msg : string) :
  fst (extract_fallback self stego_path w) <> Ok (Some [], msg).
Proof.
  drop_unused.
  unfold Stego.extract_fallback, try_except, Stego.extract_fallback_try.
  unfold bind at 1.
  destruct (Image_open stego_path w) as [[img | e] w1]; [| discriminate].
  unfold bind at 1.
  destruct (permutation_generator (seed self) _ w1) as [[indices | e] w2];
    [| discriminate].
  unfold bind, lift.
  destruct (extract_loop indices (pixels img)) as [ebits | e];
    [| discriminate].
  destruct (try_offsets self (error_correct ebits) (seq 0 8))
    as [r | e] eqn:E; [| discriminate].
  cbn. intros H. injection H as ->. eapply try_offsets_not_empty, E.
Qed.



(** * Further properties of the framer and of the fallback engine *)

(** ** The encryption layer and the framer *)

Lemma cbc_decrypt_blocks_length
    (Hdec : forall k b, length b = block_size ->
                        length (AES_decrypt_block k b) = block_size)
    (n : nat) : forall k prev data,
  length prev = block_size -> length data = (n * block_size)%nat ->
  length (cbc_decrypt_blocks n k prev data) = (n * block_size)%nat.
Proof.
  clear - Hdec.
  induction n as [| n IH]; intros k prev data Hprev Hdata; [reflexivity |].
  cbn [Stego.cbc_decrypt_blocks]. unfold block_size in *.
  assert (Hc : length (take 16 data) = 16%nat) by (rewrite length_take; lia).
  rewrite length_app, xor_bytes_length, Hdec, IH;
    [lia | exact Hc | rewrite length_drop; lia | exact Hc].
Qed.

(** X1.  [_aes_decrypt] undoes [_aes_encrypt] on every plaintext, the empty
    one included; the ciphertext is the plaintext's length rounded up to
    the next multiple of 16, a full block being added when it already is
    one. *)
Theorem aes_layer_roundtrip (self : F5Steganography) (iv data : bytes) :
  length iv = 16%nat ->
  exists ct_bytes : bytes,
    _aes_encrypt self iv data = Ok (iv, ct_bytes)
    /\ length ct_bytes = (16 * (length data / 16 + 1))%nat
    /\ _aes_decrypt self iv ct_bytes = Ok data.
Proof.
  clear - AES_decrypt_encrypt_block AES_encrypt_block_length.
  intros Hiv.
  exists (cbc_encrypt_blocks (length (pad data) / 16) (key self) iv (pad data)).
  assert (Hpad : length (pad data) = (length (pad data) / 16 * 16)%nat)
    by (rewrite pad_length; lia).
  split; [| split].
  - unfold Stego._aes_encrypt, Stego.cbc_encrypt, block_size.
    rewrite Hiv. cbn [Nat.eqb negb].
    replace (length (pad data) mod 16 =? 0)%nat with true by lia.
    reflexivity.
  - rewrite cbc_encrypt_blocks_length by (unfold block_size; assumption).
    unfold block_size. rewrite pad_length. lia.
  - apply _aes_decrypt_encrypt. exact Hiv.
Qed.

(** X2.  [_extract_data] returns the payload from whatever [_prepare_data]
    returned for it, the empty payload included, and that envelope has
    [32 + 16 * ((len + 8) div 16)] bytes. *)
Theorem framer_roundtrip (self : F5Steganography)
    (iv secret_data prepared_data : bytes) :
  length iv = 16%nat ->
  _prepare_data self iv secret_data = Ok prepared_data ->
  _extract_data self prepared_data = Some secret_data
  /\ length prepared_data = (32 + 16 * ((length secret_data + 8) / 16))%nat.
Proof.
  clear - AES_decrypt_encrypt_block AES_encrypt_block_length.
  intros Hiv Hprep.
  split; [eapply _extract_data_prepare_data; eassumption |].
  assert (Hlen : Z.of_nat (length secret_data) < 2 ^ 32).
  { unfold Stego._prepare_data, struct_pack_II in Hprep.
    destruct (is_u32 (Z.of_nat (length secret_data))) eqn:E;
      [apply is_u32_true in E; lia | discriminate]. }
  rewrite _prepare_data_Ok in Hprep by assumption.
  assert (E : prepared_data
              = iv ++ cbc_encrypt_blocks (length (pad (frame secret_data)) / 16)
                        (key self) iv (pad (frame secret_data)))
    by congruence.
  rewrite E, length_app, cbc_encrypt_blocks_length.
  - rewrite pad_length, frame_length, Hiv. unfold block_size. lia.
  - exact Hiv.
  - rewrite pad_length. unfold block_size. lia.
Qed.

Lemma unpad_Ok_inv (padded_data data : bytes) :
  unpad padded_data = Ok data ->
  (0 < length padded_data)%nat
  /\ (length padded_data mod 16 = 0)%nat
  /\ (length data < length padded_data)%nat.
Proof.
  drop_unused.
  unfold unpad, block_size. intros H.
  destruct (length padded_data =? 0)%nat eqn:E0; [discriminate |].
  destruct (length padded_data mod 16 =? 0)%nat eqn:E1; [| discriminate].
  cbn [negb] in H.
  set (p := Z.to_nat (byte_to_Z (List.last padded_data x00))) in *.
  destruct ((p <? 1)%nat || (Nat.min 16 (length padded_data) <? p)%nat) eqn:E2;
    [discriminate |].
  destruct (negb _); [discriminate |].
  assert (E : data = take (length padded_data - p) padded_data) by congruence.
  rewrite E, length_take. lia.
Qed.

(** X3.  What [_extract_data] accepts has the IV and at least one block
    after it, all in whole blocks: at least 32 bytes, a multiple of 16.
    The payload it returns leaves room for the 16 bytes of the IV, the 8 of
    the header and at least one of padding. *)
Theorem _extract_data_accepts (self : F5Steganography)
    (raw_data data : bytes) :
  (forall k b, length b = block_size ->
               length (AES_decrypt_block k b) = block_size) ->
  _extract_data self raw_data = Some data ->
  (32 <= length raw_data)%nat
  /\ (length raw_data mod 16 = 0)%nat
  /\ (length data + 25 <= length raw_data)%nat.
Proof.
  drop_unused.
  intros Hdec Hsome.
  destruct (Nat.eq_dec (length raw_data mod 16)%nat 0%nat) as [Hmod | Hmod];
    [| rewrite _extract_data_misaligned in Hsome by exact Hmod; discriminate].
  unfold Stego._extract_data in Hsome.
  destruct (length raw_data <? 16)%nat eqn:E16; [discriminate |].
  destruct (_aes_decrypt self (take 16 raw_data) (drop 16 raw_data))
    as [remaining | e] eqn:Haes.
  2: { unfold Stego._extract_data_try in Hsome. rewrite Haes in Hsome.
       discriminate. }
  assert (Hrem : (0 < length (drop 16 raw_data))%nat
                 /\ (length remaining < length (drop 16 raw_data))%nat).
  { unfold Stego._aes_decrypt, Stego.cbc_decrypt, block_size in Haes.
    rewrite length_take in Haes.
    replace (16 `min` length raw_data =? 16)%nat with true in Haes by lia.
    cbn [negb] in Haes.
    destruct (length (drop 16 raw_data) mod 16 =? 0)%nat eqn:Em;
      [| discriminate].
    cbn [negb rbind] in Haes.
    apply unpad_Ok_inv in Haes as (H0 & _ & H1).
    rewrite cbc_decrypt_blocks_length in H0, H1.
    - unfold block_size in *. lia.
    - exact Hdec.
    - rewrite length_take. unfold block_size. lia.
    - unfold block_size. lia.
    - exact Hdec.
    - rewrite length_take. unfold block_size. lia.
    - unfold block_size. lia. }
  rewrite length_drop in Hrem.
  unfold Stego._extract_data_try in Hsome. rewrite Haes in Hsome.
  cbn [rbind] in Hsome.
  destruct (8 <=? length remaining)%nat eqn:E8; [| discriminate].
  rewrite struct_unpack_fields in Hsome by lia.
  cbn [rbind fst snd] in Hsome.
  destruct (8 + length_field remaining <=? Z.of_nat (length remaining))
    eqn:El; [| discriminate].
  destruct (Z.land _ _ =? _); [| discriminate].
  assert (E : data = take (Z.to_nat (length_field remaining)) (drop 8 remaining))
    by congruence.
  split; [lia |]. split; [exact Hmod |].
  rewrite E, length_take, length_drop. lia.
Qed.

(** ** Capacity *)

(** X4.  A payload of [len] bytes asks for
    [512 + 256 * ((len + 8) div 16)] slots: with fewer, [embed_fallback]
    returns the capacity failure and changes nothing; with that many or
    more, a writable output path and an encoder that accepts well-formed
    images, it succeeds. *)
Theorem embed_fallback_capacity_rule (self : F5Steganography) (iv : bytes)
    (cover_path : string) (secret_data : bytes) (output_path : string)
    (w : world) (f : file) (img : Image) :
  length iv = 16%nat ->
  Z.of_nat (length secret_data) < 2 ^ 32 ->
  fs w !! cover_path = Some f ->
  PIL_decode_RGB f = Ok img ->
  fs_writable (fs w) output_path = true ->
  (forall result_img, Image_wf result_img ->
     exists stego, PIL_encode_JPEG (quality self) result_img = Ok stego) ->
  let needed := (512 + 256 * ((length secret_data + 8) / 16))%nat in
  let available := (width img * height img * 3)%nat in
  ((available < needed)%nat ->
   embed_fallback self iv cover_path secret_data output_path w
   = (Ok (false,
          ("Insufficient capacity: need " ++ str_of_Z (Z.of_nat needed)
           ++ " bits, have " ++ str_of_Z (Z.of_nat available))%string), w))
  /\ ((needed <= available)%nat ->
      exists w',
        embed_fallback self iv cover_path secret_data output_path w
        = (Ok (true,
               ("Fallback embedding successful - Embedded "
                ++ str_of_Z (Z.of_nat (length secret_data))
                ++ " bytes")%string), w')).
Proof.
  clear - AES_decrypt_encrypt_block AES_encrypt_block_length
            RandomState_permutation_spec PIL_decode_RGB_wf.
  intros Hiv Hlen Hfile Hdec Hwr Henc needed available.
  pose proof (_prepare_data_Ok self iv secret_data Hiv Hlen) as Hprep.
  set (prepared_data := iv ++ _) in Hprep.
  assert (HL : (8 * length prepared_data * 2 = needed)%nat).
  { unfold prepared_data, needed.
    rewrite length_app, cbc_encrypt_blocks_length.
    - rewrite pad_length, frame_length, Hiv. unfold block_size. lia.
    - exact Hiv.
    - rewrite pad_length. unfold block_size. lia. }
  split; intros Hcmp.
  - rewrite (embed_fallback_refused self iv cover_path secret_data output_path
               w f img prepared_data Hprep Hfile Hdec) by (fold available; lia).
    rewrite HL. reflexivity.
  - rewrite (embed_fallback_run self iv cover_path secret_data output_path
               w f img prepared_data Hprep Hfile Hdec)
      by (fold available; lia).
    cbv zeta. fold available.
    destruct (PIL_decode_RGB_wf f img Hdec) as [Hsize Hrange].
    fold available in Hsize.
    destruct (permutation_slots (RandomState_seed (seed self mod 2 ^ 32))
                available) as (Hnd & Hin & _).
    destruct (embed_loop_spec
                (fst (RandomState_permutation
                        (RandomState_seed (seed self mod 2 ^ 32)) available))
                (ecc_data (binary_data prepared_data)) 0 (pixels img) 0 Hnd)
      as (written & m & Eloop & Hwlen & _ & _).
    { intros idx Hidx. rewrite Hsize. apply Hin, Hidx. }
    rewrite Eloop, Hwr. cbn [fst].
    destruct (Henc {| width := width img; height := height img;
                      pixels := written |}) as [stego ->].
    { split; cbn; [fold available; lia |].
      eapply embed_loop_range; eassumption. }
    eexists. reflexivity.
Qed.

(** ** What the two functions do to the files *)



(** X6.  [extract_fallback] changes no file. *)
Theorem extract_fallback_reads_only (self : F5Steganography)
    (stego_path : string) (w : world) :
  fs (snd (extract_fallback self stego_path w)) = fs w.
Proof.
  drop_unused.
  unfold Stego.extract_fallback, try_except, Stego.extract_fallback_try, ret,
    bind, lift, Stego.Image_open, Stego.permutation_generator,
    Stego.np_random_seed, Stego.np_random_permutation, bind.
  destruct (fs w !! stego_path) as [f |]; [| reflexivity].
  destruct (PIL_decode_RGB f) as [img | e]; [| reflexivity].
  destruct ((0 <=? _) && _); [| reflexivity].
  cbn [fs rng].
  destruct (RandomState_permutation _ _) as [indices st].
  destruct (extract_loop _ _) as [ebits | e]; [| reflexivity].
  destruct (try_offsets self _ _); reflexivity.
Qed.

(** ** What extraction returns *)

Lemma _extract_data_Some_inv (self : F5Steganography) (raw_data data : bytes) :
  _extract_data self raw_data = Some data ->
  exists remaining,
    _aes_decrypt self (take 16 raw_data) (drop 16 raw_data) = Ok remaining
    /\ data = payload_field remaining
    /\ Z.of_nat (length data) = length_field remaining
    /\ crc32 data = checksum_field remaining.
Proof.
  drop_unused.
  intros Hsome.
  assert (Hraw : (16 <= length raw_data)%nat).
  { unfold Stego._extract_data in Hsome.
    destruct (length raw_data <? 16)%nat eqn:E; [discriminate | lia]. }
  destruct (_aes_decrypt self (take 16 raw_data) (drop 16 raw_data))
    as [remaining | e] eqn:Haes.
  2: { unfold Stego._extract_data, Stego._extract_data_try in Hsome.
       rewrite Haes in Hsome.
       destruct (length raw_data <? 16)%nat; discriminate. }
  rewrite (_extract_data_decrypted self raw_data remaining Hraw Haes) in Hsome.
  destruct (8 <=? length remaining)%nat eqn:E8; [| discriminate].
  destruct (8 + length_field remaining <=? Z.of_nat (length remaining))
    eqn:El; [| discriminate].
  destruct (Z.land (crc32 (payload_field remaining)) 4294967295
            =? checksum_field remaining) eqn:Ec; [| discriminate].
  cbn in Hsome. injection Hsome as <-.
  exists remaining. split; [reflexivity |]. split; [reflexivity |].
  split.
  - unfold payload_field. rewrite length_take, length_drop.
    assert (0 <= length_field remaining)
      by apply int_from_bytes_big_range.
    lia.
  - rewrite crc32_masked in Ec. lia.
Qed.

Lemma try_offsets_sound (self : F5Steganography)
    (error_corrected_bits : list Z) (offsets : list nat)
    (data : bytes) (msg : string) :
  try_offsets self error_corrected_bits offsets = Ok (Some data, msg) ->
  msg = "Fallback extraction successful"%string
  /\ data <> []
  /\ exists raw_data, _extract_data self raw_data = Some data.
Proof.
  drop_unused.
  induction offsets as [| offset offsets IH]; cbn [Stego.try_offsets];
    [discriminate |].
  destruct (bytes_of_ints _) as [extracted |]; [| discriminate].
  cbn [rbind].
  destruct (_extract_data self extracted) as [[| b found] |] eqn:E;
    [exact IH | | exact IH].
  cbn. intros H. injection H as <- <-.
  split; [reflexivity |]. split; [discriminate |]. eauto.
Qed.

(** X7.  A payload that [extract_fallback] returns is never empty, comes
    with the success message, and is the payload field of bytes that
    decrypted and unpadded without error, with the length the header
    states and the CRC-32 the header states. *)
Theorem extract_fallback_sound (self : F5Steganography)
    (stego_path : string) (w : world) (data : bytes) (msg : string) :
  fst (extract_fallback self stego_path w) = Ok (Some data, msg) ->
  msg = "Fallback extraction successful"%string
  /\ data <> []
  /\ exists raw_data remaining,
       _aes_decrypt self (take 16 raw_data) (drop 16 raw_data) = Ok remaining
       /\ data = payload_field remaining
       /\ Z.of_nat (length data) = length_field remaining
       /\ crc32 data = checksum_field remaining.
Proof.
  drop_unused.
  unfold Stego.extract_fallback, try_except, Stego.extract_fallback_try, ret.
  unfold bind at 1.
  destruct (Image_open stego_path w) as [[img | e] w1]; [| discriminate].
  unfold bind at 1.
  destruct (permutation_generator (seed self) _ w1) as [[indices | e] w2];
    [| discriminate].
  unfold bind, lift.
  destruct (extract_loop indices (pixels img)) as [ebits | e];
    [| discriminate].
  destruct (try_offsets self (error_correct ebits) (seq 0 8))
    as [r | e] eqn:E; [| discriminate].
  cbn. intros H. injection H as ->.
  destruct (try_offsets_sound _ _ _ _ _ E) as (Hmsg & Hne & raw_data & Hraw).
  split; [exact Hmsg |]. split; [exact Hne |].
  exists raw_data. apply _extract_data_Some_inv, Hraw.
Qed.

(** ** The two pixel loops together *)

Lemma bytes_of_ints_app (data : bytes) (rest : list Z) (tail : bytes) :
  bytes_of_ints rest = Ok tail ->
  bytes_of_ints (map byte_to_Z data ++ rest) = Ok (data ++ tail).
Proof.
  drop_unused.
  intros Hrest. induction data as [| b data IH]; [exact Hrest |].
  cbn [map app bytes_of_ints]. pose proof (byte_to_Z_range b).
  replace ((0 <=? byte_to_Z b) && (byte_to_Z b <? 256)) with true by lia.
  rewrite IH. cbn [rbind]. rewrite byte_of_to_Z. reflexivity.
Qed.

(** X8.  Writing the bitstream of some bytes along distinct, in-range
    slots and reading all the slots back in the same order gives, after the
    OR rule and the grouping at offset 0, those bytes followed by
    [N div 16 - len] further bytes, whatever the carrier held. *)
Theorem embedded_bytes_read_back (indices : list nat) (flat_pixels : list Z)
    (prepared_data : bytes) :
  NoDup indices ->
  (forall idx, In idx indices -> (idx < length flat_pixels)%nat) ->
  (8 * length prepared_data * 2 <= length indices)%nat ->
  exists written modifications extracted_bits tail,
    embed_loop indices (ecc_data (binary_data prepared_data)) 0 flat_pixels 0
    = Ok (written, modifications)
    /\ extract_loop indices written = Ok extracted_bits
    /\ bytes_of_ints (pack_bits (error_correct extracted_bits))
       = Ok (prepared_data ++ tail)
    /\ length tail = (length indices / 16 - length prepared_data)%nat.
Proof.
  drop_unused.
  intros Hnd Hin Hroom.
  set (bits := ecc_data (binary_data prepared_data)).
  assert (Hblen : length bits = (8 * length prepared_data * 2)%nat)
    by apply bits_length.
  destruct (extract_embed_loops indices bits flat_pixels Hnd Hin)
    as (written & m & ebits & Eloop & _ & Eex & Helen & Htake).
  { apply ecc_data_bits, binary_data_bits. }
  { lia. }
  destruct (extract_loop_bits _ _ _ Eex) as [Hebits _].
  set (rest := drop (length bits) ebits).
  destruct (error_correct_bits rest) as [Hecb Hecl].
  destruct (pack_bits_bytes _ Hecb) as [Hrange Hplen].
  destruct (bytes_of_ints_Ok _ Hrange) as (tail & Etail & Htl).
  exists written, m, ebits, tail.
  split; [exact Eloop |]. split; [exact Eex |]. split.
  - rewrite <- (take_drop (length bits) ebits), Htake. fold rest.
    unfold bits at 1.
    rewrite error_correct_ecc_data_app by apply binary_data_bits.
    rewrite pack_bits_binary_data. apply bytes_of_ints_app, Etail.
  - rewrite Htl, Hplen, Hecl. unfold rest. rewrite length_drop. lia.
Qed.

Lemma combine_nil_r {A B} (l : list A) : combine l (@nil B) = [].
Proof. drop_unused. destruct l; reflexivity. Qed.

Lemma embed_loop_modifications (indices : list nat) (bits : list Z) :
  forall bit_index flat_pixels modifications written modifications',
    NoDup indices ->
    embed_loop indices bits bit_index flat_pixels modifications
    = Ok (written, modifications') ->
    modifications'
    = (modifications
       + length (List.filter (flips flat_pixels)
                   (combine indices (drop bit_index bits))))%nat.
Proof.
  drop_unused.
  induction indices as [| idx0 indices IH];
    intros k fp m written m' Hnd Hloop.
  - cbn in Hloop. injection Hloop as _ <-. cbn. lia.
  - apply NoDup_cons in Hnd as [Hnotin Hnd].
    cbn [embed_loop] in Hloop.
    destruct (bits !! k) as [bit0 |] eqn:Hb.
    2: { injection Hloop as _ <-.
         rewrite drop_ge by (apply lookup_ge_None; exact Hb).
         rewrite combine_nil_r. cbn. lia. }
    destruct (fp !! idx0) as [v0 |] eqn:Hv; [| discriminate].
    rewrite (drop_S bits bit0 k Hb). cbn [combine List.filter].
    unfold flips at 1. cbn [fst snd].
    rewrite (nth_lookup_Some fp idx0 0 v0 Hv).
    destruct (second_lsb v0 =? bit0) eqn:E; cbn [negb].
    + apply (IH _ _ _ _ _ Hnd Hloop).
    + rewrite (IH _ _ _ _ _ Hnd Hloop). cbn [length].
      rewrite Nat.add_succ_r. cbn [Nat.add]. f_equal. f_equal. f_equal.
      apply List.filter_ext_in. intros [idx bit] Hp. unfold flips.
      cbn [fst snd]. apply in_combine_l in Hp.
      rewrite !nth_lookup, list_lookup_insert_ne; [reflexivity |].
      intros ->. apply Hnotin. apply list_elem_of_In. exact Hp.
Qed.

(** X9.  The counter [modifications] that the embedding loop returns is
    the number of bitstream positions whose slot held the other bit in the
    cover; it is at most the length of the bitstream. *)
Theorem embed_loop_counts_flips (indices : list nat) (bits flat_pixels : list Z)
    (written : list Z) (modifications : nat) :
  NoDup indices ->
  embed_loop indices bits 0 flat_pixels 0 = Ok (written, modifications) ->
  modifications
  = length (List.filter (flips flat_pixels) (combine indices bits))
  /\ (modifications <= length bits)%nat.
Proof.
  drop_unused.
  intros Hnd Hloop.
  pose proof (embed_loop_modifications indices bits 0 flat_pixels 0 written
                modifications Hnd Hloop) as E.
  rewrite drop_0 in E. cbn [Nat.add] in E.
  split; [exact E |].
  rewrite E.
  etransitivity; [apply List.filter_length_le |].
  rewrite length_combine. lia.
Qed.

End Properties.

(** * Properties of the OutGuess backend *)

Section BackendProperties.

Variable AES_encrypt_block : bytes -> bytes -> bytes.
Variable AES_decrypt_block : bytes -> bytes -> bytes.
Variable rng_state : Type.
Variable file : Type.
Variable fs_writable : gmap string file -> string -> bool.
Variable file_of_bytes : bytes -> file.
Variable file_read : file -> bytes.
Variable tempfile_name : gmap string file -> string -> string.
Variable subprocess_run :
  list string -> gmap string file -> result (Z * string) * gmap string file.
Variable str_strip : string -> string.

Hypothesis AES_decrypt_encrypt_block : forall k b,
  length b = block_size -> AES_decrypt_block k (AES_encrypt_block k b) = b.
Hypothesis AES_encrypt_block_length : forall k b,
  length b = block_size -> length (AES_encrypt_block k b) = block_size.

Local Abbreviation world := (world rng_state file).
Local Abbreviation _prepare_data := (_prepare_data AES_encrypt_block).
Local Abbreviation _aes_decrypt := (_aes_decrypt AES_decrypt_block).
Local Abbreviation _extract_data := (_extract_data AES_decrypt_block).
Local Abbreviation unlink_quietly := (Backend.unlink_quietly rng_state file).
Local Abbreviation error_msg := (Backend.error_msg str_strip).
Local Abbreviation embed_with_outguess :=
  (Backend.embed_with_outguess AES_encrypt_block rng_state file fs_writable
     file_of_bytes tempfile_name subprocess_run str_strip).
Local Abbreviation extract_with_outguess :=
  (Backend.extract_with_outguess AES_decrypt_block rng_state file fs_writable
     file_of_bytes file_read tempfile_name subprocess_run str_strip).

Lemma unlink_quietly_run (path : string) (w : world) :
  unlink_quietly path w
  = (Ok tt, {| fs := delete path (fs w); rng := rng w |}).
Proof.
  drop_unused.
  unfold Backend.unlink_quietly, try_except, Backend.os_unlink, ret.
  destruct (fs w !! path) eqn:E; [reflexivity |].
  rewrite delete_id by exact E. destruct w; reflexivity.
Qed.

(** X10.  When the envelope is ready, the temporary file can be created and
    the program runs to its end, [embed_with_outguess] has started it on a
    data file that holds the envelope, with the session's password as key;
    it reports success exactly when the exit status is 0; and afterwards
    the data file is gone and every other file is as the program left
    it. *)
Theorem embed_with_outguess_completed (self : F5Steganography) (iv : bytes)
    (cover_path : string) (secret_data : bytes) (output_path : string)
    (w : world) (prepared_data : bytes) (code : Z) (stderr : string)
    (files : gmap string file) :
  _prepare_data self iv secret_data = Ok prepared_data ->
  let data_path := tempfile_name (fs w) ".dat" in
  fs_writable (fs w) data_path = true ->
  subprocess_run
    ["outguess"; "-d"; data_path; "-k"; password self; cover_path;
     output_path]%string
    (<[data_path := file_of_bytes prepared_data]> (fs w))
  = (Ok (code, stderr), files) ->
  exists w',
    embed_with_outguess self iv cover_path secret_data output_path w
    = (Ok (code =? 0,
           if code =? 0
           then "Embedding successful using OutGuess (Professional F5)"%string
           else ("OutGuess failed: " ++ error_msg stderr)%string), w')
    /\ fs w' !! data_path = None
    /\ (forall path, path <> data_path -> fs w' !! path = files !! path)
    /\ rng w' = rng w.
Proof.
  drop_unused.
  intros Hprep data_path Hwr Hrun.
  exists {| fs := delete data_path files; rng := rng w |}.
  split; [| split; [apply lookup_delete_eq | split; [| reflexivity]]].
  - unfold Backend.embed_with_outguess, try_except,
      Backend.embed_with_outguess_try.
    unfold bind at 1. unfold lift at 1. rewrite Hprep.
    unfold bind at 1. unfold Backend.NamedTemporaryFile at 1.
    fold data_path. rewrite Hwr.
    unfold bind at 1. unfold Backend.run at 1. cbn [fs rng].
    rewrite Hrun. cbn [fst snd].
    unfold bind at 1. rewrite unlink_quietly_run. cbn [fs rng].
    destruct (code =? 0); reflexivity.
  - intros path Hne. cbn [fs]. apply lookup_delete_ne. congruence.
Qed.

(** X11.  When the program exits with status 0 and has left in the
    temporary file the envelope of a non-empty payload,
    [extract_with_outguess] returns that payload and removes the
    temporary file. *)
Theorem extract_with_outguess_recovers (self : F5Steganography)
    (iv secret_data prepared_data : bytes) (stego_path : string) (w : world)
    (stderr : string) (files : gmap string file) (f : file) :
  length iv = 16%nat ->
  secret_data <> [] ->
  _prepare_data self iv secret_data = Ok prepared_data ->
  let data_path := tempfile_name (fs w) ".out" in
  fs_writable (fs w) data_path = true ->
  subprocess_run
    ["outguess"; "-r"; "-k"; password self; stego_path; data_path]%string
    (<[data_path := file_of_bytes []]> (fs w))
  = (Ok (0, stderr), files) ->
  files !! data_path = Some f ->
  file_read f = prepared_data ->
  extract_with_outguess self stego_path w
  = (Ok (Some secret_data, "Extraction successful using OutGuess"%string),
     {| fs := delete data_path files; rng := rng w |}).
Proof.
  clear - AES_decrypt_encrypt_block AES_encrypt_block_length.
  intros Hiv Hne Hprep data_path Hwr Hrun Hf Hread.
  unfold Backend.extract_with_outguess, try_except,
    Backend.extract_with_outguess_try.
  unfold bind at 1. unfold Backend.NamedTemporaryFile at 1.
  fold data_path. rewrite Hwr.
  unfold bind at 1. unfold Backend.run at 1. cbn [fs rng].
  rewrite Hrun. cbn [fst snd]. change (0 =? 0) with true. cbv iota.
  unfold bind at 1. unfold Backend.read_file at 1. cbn [fs]. rewrite Hf, Hread.
  unfold bind at 1. rewrite unlink_quietly_run. cbn [fs rng].
  rewrite (_extract_data_prepare_data AES_encrypt_block AES_decrypt_block
             AES_decrypt_encrypt_block AES_encrypt_block_length
             self iv secret_data prepared_data Hiv Hprep).
  destruct secret_data; [congruence | reflexivity].
Qed.

(** X12.  A payload that [extract_with_outguess] returns is never empty,
    comes with the success message, and is the payload field of bytes that
    decrypted and unpadded without error, with the length and the CRC-32
    the header states. *)
Theorem extract_with_outguess_sound (self : F5Steganography)
    (stego_path : string) (w : world) (data : bytes) (msg : string) :
  fst (extract_with_outguess self stego_path w) = Ok (Some data, msg) ->
  msg = "Extraction successful using OutGuess"%string
  /\ data <> []
  /\ exists raw_data remaining,
       _aes_decrypt self (take 16 raw_data) (drop 16 raw_data) = Ok remaining
       /\ data = payload_field remaining
       /\ Z.of_nat (length data) = length_field remaining
       /\ crc32 data = checksum_field remaining.
Proof.
  drop_unused.
  unfold Backend.extract_with_outguess, try_except,
    Backend.extract_with_outguess_try, ret, bind, Backend.NamedTemporaryFile,
    Backend.run, Backend.read_file.
  destruct (fs_writable _ _); [| discriminate].
  cbn [fs rng].
  destruct (subprocess_run _ _) as [[[code stderr] | e] files];
    cbn [fst snd fs rng]; [| discriminate].
  destruct (code =? 0); cbn [fs rng].
  - destruct (files !! _) as [f |]; [| cbn; discriminate].
    rewrite unlink_quietly_run.
    destruct (_extract_data self (file_read f)) as [[| b found] |] eqn:E;
      cbn; try discriminate.
    intros H. injection H as <- <-.
    split; [reflexivity |]. split; [discriminate |].
    exists (file_read f).
    apply (_extract_data_Some_inv AES_decrypt_block), E.
  - rewrite unlink_quietly_run. discriminate.
Qed.

(** X13.  Whenever the temporary file can be created and the program runs
    to its end, with whatever exit status and whatever it left behind,
    [extract_with_outguess] returns with the temporary file gone, every
    other file as the program left it and numpy's generator untouched. *)
Theorem extract_with_outguess_cleans_up (self : F5Steganography)
    (stego_path : string) (w : world) (code : Z) (stderr : string)
    (files : gmap string file) :
  let data_path := tempfile_name (fs w) ".out" in
  fs_writable (fs w) data_path = true ->
  subprocess_run
    ["outguess"; "-r"; "-k"; password self; stego_path; data_path]%string
    (<[data_path := file_of_bytes []]> (fs w))
  = (Ok (code, stderr), files) ->
  snd (extract_with_outguess self stego_path w)
  = {| fs := delete data_path files; rng := rng w |}.
Proof.
  drop_unused.
  intros data_path Hwr Hrun.
  unfold Backend.extract_with_outguess, try_except,
    Backend.extract_with_outguess_try, ret, bind, Backend.NamedTemporaryFile,
    Backend.run, Backend.read_file.
  fold data_path. rewrite Hwr. cbn [fs rng]. rewrite Hrun.
  cbn [fst snd fs rng].
  destruct (code =? 0); cbn [fs rng].
  - destruct (files !! data_path) as [f |] eqn:Hf.
    + rewrite unlink_quietly_run.
      destruct (_extract_data self (file_read f)) as [[| b found] |];
        reflexivity.
    + cbn. rewrite delete_id by exact Hf. reflexivity.
  - rewrite unlink_quietly_run. reflexivity.
Qed.

End BackendProperties.

(** * The stand-ins meet the contracts *)

Lemma Sample_block_key_length (k : bytes) : length (Sample.block_key k) = 16%nat.
Proof.
  unfold Sample.block_key, block_size.
  rewrite length_take, length_app, repeat_length. lia.
Qed.

Lemma Sample_decrypt_encrypt_block (k b : bytes) :
  length b = block_size ->
  Sample.decrypt_block k (Sample.encrypt_block k b) = b.
Proof.
  intros Hb. unfold Sample.decrypt_block, Sample.encrypt_block.
  apply xor_bytes_cancel. rewrite Sample_block_key_length, Hb. reflexivity.
Qed.

Lemma Sample_encrypt_block_length (k b : bytes) :
  length b = block_size -> length (Sample.encrypt_block k b) = block_size.
Proof.
  intros Hb. unfold Sample.encrypt_block.
  rewrite xor_bytes_length, Sample_block_key_length, Hb. reflexivity.
Qed.

Lemma Sample_decrypt_block_length (k b : bytes) :
  length b = block_size -> length (Sample.decrypt_block k b) = block_size.
Proof.
  intros Hb. unfold Sample.decrypt_block.
  rewrite xor_bytes_length, Sample_block_key_length, Hb. reflexivity.
Qed.


Lemma Sample_permutation_spec (st : Sample.rng_state) (n : nat) :
  Permutation (fst (Sample.permutation st n)) (seq 0 n).
Proof. symmetry. apply Permutation_rev. Qed.

Lemma Sample_Image_wfb_spec (img : Image) :
  Sample.Image_wfb img = true <-> Image_wf img.
Proof.
  unfold Sample.Image_wfb, Image_wf.
  rewrite andb_true_iff, Nat.eqb_eq, forallb_forall, List.Forall_forall.
  split; intros [H1 H2]; (split; [exact H1 |]); intros v Hv;
    specialize (H2 v Hv); lia.
Qed.

Lemma Sample_decode_RGB_wf (f : Sample.file) (img : Image) :
  Sample.decode_RGB f = Ok img -> Image_wf img.
Proof.
  unfold Sample.decode_RGB.
  destruct (Sample.Image_wfb f) eqn:E; [| discriminate].
  intros H. injection H as <-. apply Sample_Image_wfb_spec, E.
Qed.


Lemma pair_eta {A B} (p : A * B) (a : A) : fst p = a -> p = (a, snd p).
Proof. intros <-. destruct p; reflexivity. Qed.

(** * The claims at concrete inputs *)



(** C3 at the payload [hello]: the plaintext is [00 00 00 05], then
    [36 10 a6 86], the CRC-32 of [hello], then [hello]. *)
Lemma _prepare_data_wire_format_hello :
  exists ciphertext : bytes,
    _prepare_data Sample.encrypt_block (Sample.session "secure-pass-123")
      Sample.iv Sample.hello
    = Ok (Sample.iv ++ ciphertext)
    /\ cbc_encrypt Sample.encrypt_block
         (key (Sample.session "secure-pass-123")) Sample.iv
         (pad [x00; x00; x00; x05; x36; x10; xa6; x86;
               "h"; "e"; "l"; "l"; "o"]%byte)
       = Ok ciphertext
    /\ (0 < length ciphertext)%nat
    /\ (length ciphertext mod 16 = 0)%nat
    /\ _aes_decrypt Sample.decrypt_block (Sample.session "secure-pass-123")
         Sample.iv ciphertext
       = Ok [x00; x00; x00; x05; x36; x10; xa6; x86;
             "h"; "e"; "l"; "l"; "o"]%byte.
Proof.
  apply (_prepare_data_wire_format Sample.encrypt_block Sample.decrypt_block
           Sample_decrypt_encrypt_block Sample_encrypt_block_length
           (Sample.session "secure-pass-123") Sample.iv Sample.hello).
  - reflexivity.
  - vm_compute. reflexivity.
Defined.

(** C3 as stated fails for a payload of 2^32 bytes: [struct.pack] refuses
    its length, and [_prepare_data] raises. *)
Lemma _prepare_data_4GiB_raises :
  Z.of_nat (length Sample.payload_4GiB) = 2 ^ 32
  /\ forall (AES_encrypt_block : bytes -> bytes -> bytes)
       (self : F5Steganography) (iv : bytes),
       _prepare_data AES_encrypt_block self iv Sample.payload_4GiB
       = Raise "'I' format requires 0 <= number <= 4294967295".
Proof.
  assert (H : Z.of_nat (length Sample.payload_4GiB) = 2 ^ 32).
  { unfold Sample.payload_4GiB. rewrite repeat_length, Z2Nat.id; [reflexivity |].
    apply Z.pow_nonneg. lia. }
  split; [exact H |].
  intros AES_encrypt_block self iv.
  unfold _prepare_data, struct_pack_II. rewrite H.
  change (is_u32 (2 ^ 32)) with false. reflexivity.
Qed.

(** C5 at a carrier of 16 by 10 pixels and the payload [hello]. *)
Lemma embed_fallback_capacity_witness :
  Sample.embed "secure-pass-123" Sample.hello 16 10
  = (Ok (false, "Insufficient capacity: need 512 bits, have 480"%string),
     Sample.disk 16 10).
Proof.
  apply (embed_fallback_capacity Sample.encrypt_block Sample.rng_state
           Sample.seed_state Sample.permutation Sample.file Sample.decode_RGB
           Sample.encode Sample.writable (Sample.session "secure-pass-123")
           Sample.iv "cover.jpg" Sample.hello "stego.jpg" (Sample.disk 16 10)
           (Sample.cover 16 10) (Sample.cover 16 10)
           (Sample.envelope "secure-pass-123" Sample.hello)).
  - vm_compute. reflexivity.
  - apply lookup_singleton_eq.
  - vm_compute. reflexivity.
  - vm_compute. lia.
Defined.

(** C7 at a carrier of 20 by 10 pixels and the payload [hello]. *)
Lemma embed_fallback_frame_witness :
  let cover := Sample.cover 20 10 in
  let w' := snd (Sample.embed "secure-pass-123" Sample.hello 20 10) in
  let bitstream :=
    ecc_data (binary_data (Sample.envelope "secure-pass-123" Sample.hello)) in
  let permutation :=
    fst (Sample.permutation
           (Sample.seed_state (seed (Sample.session "secure-pass-123") mod 2 ^ 32))
           (width cover * height cover * 3)) in
  exists (written : list Z) (stego : Sample.file),
    Sample.encode (quality (Sample.session "secure-pass-123"))
      {| width := width cover; height := height cover; pixels := written |}
    = Ok stego
    /\ fs w' = <["stego.jpg"%string := stego]> (fs (Sample.disk 20 10))
    /\ length written = length (pixels cover)
    /\ (forall i slot bit,
           permutation !! i = Some slot -> bitstream !! i = Some bit ->
           exists v v',
             pixels cover !! slot = Some v /\ written !! slot = Some v'
             /\ second_lsb v' = bit
             /\ forall k, k <> 1 -> Z.testbit v' k = Z.testbit v k)
    /\ (forall j slot,
           permutation !! j = Some slot -> (length bitstream <= j)%nat ->
           written !! slot = pixels cover !! slot).
Proof.
  apply (embed_fallback_frame Sample.encrypt_block Sample.rng_state
           Sample.seed_state Sample.permutation Sample.file Sample.decode_RGB
           Sample.encode Sample.writable
           Sample_permutation_spec Sample_decode_RGB_wf
           (Sample.session "secure-pass-123") Sample.iv "cover.jpg"
           Sample.hello "stego.jpg" (Sample.disk 20 10)
           (snd (Sample.embed "secure-pass-123" Sample.hello 20 10))
           "Fallback embedding successful - Embedded 5 bytes"
           (Sample.cover 20 10) (Sample.cover 20 10)
           (Sample.envelope "secure-pass-123" Sample.hello)).
  - vm_compute. reflexivity.
  - apply lookup_singleton_eq.
  - vm_compute. reflexivity.
  - apply pair_eta. vm_compute. reflexivity.
Defined.

(** C8 at five slots, from two different states of the world. *)
Lemma permutation_generator_deterministic_witness :
  exists indices : list nat,
    fst (permutation_generator Sample.rng_state Sample.seed_state
           Sample.permutation Sample.file 3347942098 5 (Sample.disk 1 1))
    = Ok indices
    /\ fst (permutation_generator Sample.rng_state Sample.seed_state
              Sample.permutation Sample.file 3347942098 5
              {| fs := ∅; rng := (7, 3%nat) |})
       = Ok indices
    /\ Permutation indices (seq 0 5)
    /\ NoDup indices
    /\ length indices = 5%nat
    /\ (forall slot, In slot indices <-> (slot < 5)%nat).
Proof.
  apply (permutation_generator_deterministic Sample.rng_state
           Sample.seed_state Sample.permutation Sample.file
           Sample_permutation_spec).
Defined.


(** * The further properties at concrete inputs *)

(** X1 at the payload [hello]. *)
Lemma aes_layer_roundtrip_witness :
  exists ct_bytes : bytes,
    _aes_encrypt Sample.encrypt_block (Sample.session "secure-pass-123")
      Sample.iv Sample.hello
    = Ok (Sample.iv, ct_bytes)
    /\ length ct_bytes = (16 * (length Sample.hello / 16 + 1))%nat
    /\ _aes_decrypt Sample.decrypt_block (Sample.session "secure-pass-123")
         Sample.iv ct_bytes
       = Ok Sample.hello.
Proof.
  apply (aes_layer_roundtrip Sample.encrypt_block Sample.decrypt_block
           Sample_decrypt_encrypt_block Sample_encrypt_block_length
           (Sample.session "secure-pass-123") Sample.iv Sample.hello).
  reflexivity.
Defined.

(** X2 at the payload [hello]: an envelope of 32 bytes. *)
Lemma framer_roundtrip_witness :
  _extract_data Sample.decrypt_block (Sample.session "secure-pass-123")
    (Sample.envelope "secure-pass-123" Sample.hello)
  = Some Sample.hello
  /\ length (Sample.envelope "secure-pass-123" Sample.hello)
     = (32 + 16 * ((length Sample.hello + 8) / 16))%nat.
Proof.
  apply (framer_roundtrip Sample.encrypt_block Sample.decrypt_block
           Sample_decrypt_encrypt_block Sample_encrypt_block_length
           (Sample.session "secure-pass-123") Sample.iv Sample.hello
           (Sample.envelope "secure-pass-123" Sample.hello)).
  - reflexivity.
  - vm_compute. reflexivity.
Defined.

(** X3 at the envelope of [hello]. *)
Lemma _extract_data_accepts_witness :
  (32 <= length (Sample.envelope "secure-pass-123" Sample.hello))%nat
  /\ (length (Sample.envelope "secure-pass-123" Sample.hello) mod 16 = 0)%nat
  /\ (length Sample.hello + 25
      <= length (Sample.envelope "secure-pass-123" Sample.hello))%nat.
Proof.
  apply (_extract_data_accepts Sample.decrypt_block
           (Sample.session "secure-pass-123")
           (Sample.envelope "secure-pass-123" Sample.hello) Sample.hello).
  - exact Sample_decrypt_block_length.
  - vm_compute. reflexivity.
Defined.

(** X4 at the payload [hello] and a carrier of 16 by 10 pixels, 480 slots
    where 512 are needed. *)
Lemma embed_fallback_capacity_rule_witness :
  let needed := (512 + 256 * ((length Sample.hello + 8) / 16))%nat in
  let available :=
    (width (Sample.cover 16 10) * height (Sample.cover 16 10) * 3)%nat in
  ((available < needed)%nat ->
   Sample.embed "secure-pass-123" Sample.hello 16 10
   = (Ok (false,
          ("Insufficient capacity: need " ++ str_of_Z (Z.of_nat needed)
           ++ " bits, have " ++ str_of_Z (Z.of_nat available))%string),
      Sample.disk 16 10))
  /\ ((needed <= available)%nat ->
      exists w',
        Sample.embed "secure-pass-123" Sample.hello 16 10
        = (Ok (true,
               ("Fallback embedding successful - Embedded "
                ++ str_of_Z (Z.of_nat (length Sample.hello))
                ++ " bytes")%string), w')).
Proof.
  apply (embed_fallback_capacity_rule Sample.encrypt_block Sample.rng_state
           Sample.seed_state Sample.permutation Sample.file Sample.decode_RGB
           Sample.encode Sample.writable
           Sample_encrypt_block_length Sample_permutation_spec
           Sample_decode_RGB_wf
           (Sample.session "secure-pass-123") Sample.iv "cover.jpg"
           Sample.hello "stego.jpg" (Sample.disk 16 10)
           (Sample.cover 16 10) (Sample.cover 16 10)).
  - reflexivity.
  - vm_compute. reflexivity.
  - apply lookup_singleton_eq.
  - vm_compute. reflexivity.
  - reflexivity.
  - intros result_img _. exists result_img. reflexivity.
Defined.

(** X7 at the stego file made from [hello] on a carrier of 171 by 1
    pixels. *)
Lemma extract_fallback_sound_witness :
  "Fallback extraction successful"%string
  = "Fallback extraction successful"%string
  /\ Sample.hello <> []
  /\ exists raw_data remaining : bytes,
       _aes_decrypt Sample.decrypt_block (Sample.session "secure-pass-123")
         (take 16 raw_data) (drop 16 raw_data)
       = Ok remaining
       /\ Sample.hello = payload_field remaining
       /\ Z.of_nat (length Sample.hello) = length_field remaining
       /\ crc32 Sample.hello = checksum_field remaining.
Proof.
  apply (extract_fallback_sound Sample.decrypt_block Sample.rng_state
           Sample.seed_state Sample.permutation Sample.file Sample.decode_RGB
           (Sample.session "secure-pass-123") "stego.jpg"
           (snd (Sample.embed "secure-pass-123" Sample.hello 171 1))
           Sample.hello "Fallback extraction successful").
  vm_compute. reflexivity.
Defined.

(** X8 at one byte and 24 slots taken in descending order. *)
Lemma embedded_bytes_read_back_witness :
  exists (written : list Z) (modifications : nat) (extracted_bits : list Z)
    (tail : bytes),
    embed_loop (rev (seq 0 24)) (ecc_data (binary_data [x2a])) 0
      (pixels (Sample.cover 4 2)) 0
    = Ok (written, modifications)
    /\ extract_loop (rev (seq 0 24)) written = Ok extracted_bits
    /\ bytes_of_ints (pack_bits (error_correct extracted_bits))
       = Ok ([x2a] ++ tail)
    /\ length tail = (length (rev (seq 0 24)) / 16 - length [x2a])%nat.
Proof.
  apply (embedded_bytes_read_back (rev (seq 0 24))
           (pixels (Sample.cover 4 2)) [x2a]).
  - apply (bool_decide_unpack _). vm_compute. exact I.
  - intros idx Hin. vm_compute in Hin. cbn. lia.
  - cbn. lia.
Defined.

(** X9 at three pixels and two bits, both of which flip a pixel. *)
Lemma embed_loop_counts_flips_witness :
  2%nat = length (List.filter (flips [5; 2; 7]) (combine [2; 0; 1]%nat [0; 1]))
  /\ (2 <= length [0; 1])%nat.
Proof.
  apply (embed_loop_counts_flips [2; 0; 1]%nat [0; 1] [5; 2; 7] [7; 2; 5] 2).
  - apply (bool_decide_unpack _). vm_compute. exact I.
  - vm_compute. reflexivity.
Defined.

(** X10 at the payload [hello]: the stand-in exits with status 0. *)
Lemma embed_with_outguess_completed_witness :
  exists w',
    SampleTool.embed "secure-pass-123" Sample.hello SampleTool.disk
    = (Ok (0 =? 0,
           if 0 =? 0
           then "Embedding successful using OutGuess (Professional F5)"%string
           else ("OutGuess failed: "
                 ++ Backend.error_msg SampleTool.strip "")%string), w')
    /\ fs w' !! "/tmp/tmp0.dat"%string = None
    /\ (forall path, path <> "/tmp/tmp0.dat"%string ->
        fs w' !! path
        = <["out.jpg"%string := Sample.envelope "secure-pass-123" Sample.hello]>
            (<["/tmp/tmp0.dat"%string
                 := Sample.envelope "secure-pass-123" Sample.hello]>
               (fs SampleTool.disk)) !! path)
    /\ rng w' = rng SampleTool.disk.
Proof.
  apply (embed_with_outguess_completed Sample.encrypt_block Sample.rng_state
           SampleTool.file SampleTool.writable SampleTool.file_of_bytes
           SampleTool.tempfile_name SampleTool.run SampleTool.strip
           (SampleTool.session "secure-pass-123") Sample.iv "cover.jpg"
           Sample.hello "out.jpg" SampleTool.disk
           (Sample.envelope "secure-pass-123" Sample.hello) 0 "").
  - vm_compute. reflexivity.
  - reflexivity.
  - vm_compute. reflexivity.
Defined.

(** X11 at the stego file of the stand-in's disk, which holds the envelope
    of [hello]. *)
Lemma extract_with_outguess_recovers_witness :
  SampleTool.extract "secure-pass-123" "stego.jpg" SampleTool.disk
  = (Ok (Some Sample.hello, "Extraction successful using OutGuess"%string),
     {| fs := delete "/tmp/tmp0.out"%string
                (<["/tmp/tmp0.out"%string
                     := Sample.envelope "secure-pass-123" Sample.hello]>
                   (<["/tmp/tmp0.out"%string := []]> (fs SampleTool.disk)));
        rng := rng SampleTool.disk |}).
Proof.
  apply (extract_with_outguess_recovers Sample.encrypt_block
           Sample.decrypt_block Sample.rng_state SampleTool.file
           SampleTool.writable SampleTool.file_of_bytes SampleTool.file_read
           SampleTool.tempfile_name SampleTool.run SampleTool.strip
           Sample_decrypt_encrypt_block Sample_encrypt_block_length
           (SampleTool.session "secure-pass-123") Sample.iv Sample.hello
           (Sample.envelope "secure-pass-123" Sample.hello) "stego.jpg"
           SampleTool.disk ""
           (<["/tmp/tmp0.out"%string
                := Sample.envelope "secure-pass-123" Sample.hello]>
              (<["/tmp/tmp0.out"%string := []]> (fs SampleTool.disk)))
           (Sample.envelope "secure-pass-123" Sample.hello)).
  - reflexivity.
  - discriminate.
  - vm_compute. reflexivity.
  - reflexivity.
  - vm_compute. reflexivity.
  - apply lookup_insert_eq.
  - reflexivity.
Defined.

(** X12 at the same stego file. *)
Lemma extract_with_outguess_sound_witness :
  "Extraction successful using OutGuess"%string
  = "Extraction successful using OutGuess"%string
  /\ Sample.hello <> []
  /\ exists raw_data remaining : bytes,
       _aes_decrypt Sample.decrypt_block (SampleTool.session "secure-pass-123")
         (take 16 raw_data) (drop 16 raw_data)
       = Ok remaining
       /\ Sample.hello = payload_field remaining
       /\ Z.of_nat (length Sample.hello) = length_field remaining
       /\ crc32 Sample.hello = checksum_field remaining.
Proof.
  apply (extract_with_outguess_sound Sample.decrypt_block Sample.rng_state
           SampleTool.file SampleTool.writable SampleTool.file_of_bytes
           SampleTool.file_read SampleTool.tempfile_name SampleTool.run
           SampleTool.strip (SampleTool.session "secure-pass-123") "stego.jpg"
           SampleTool.disk Sample.hello "Extraction successful using OutGuess").
  vm_compute. reflexivity.
Defined.

(** X13 at a stego path that does not exist: the stand-in exits with status
    1 and leaves the files as they were. *)
Lemma extract_with_outguess_cleans_up_witness :
  snd (SampleTool.extract "secure-pass-123" "missing.jpg" SampleTool.disk)
  = {| fs := delete "/tmp/tmp0.out"%string
               (<["/tmp/tmp0.out"%string := []]> (fs SampleTool.disk));
       rng := rng SampleTool.disk |}.
Proof.
  apply (extract_with_outguess_cleans_up Sample.decrypt_block Sample.rng_state
           SampleTool.file SampleTool.writable SampleTool.file_of_bytes
           SampleTool.file_read SampleTool.tempfile_name SampleTool.run
           SampleTool.strip (SampleTool.session "secure-pass-123")
           "missing.jpg" SampleTool.disk 1 "outguess: cannot open input"
           (<["/tmp/tmp0.out"%string := []]> (fs SampleTool.disk))).
  - reflexivity.
  - vm_compute. reflexivity.
Defined.
